(** * Ono Selfie: prompt construction, image request and dispatch

    A shallow embedding of the two generation scripts of the skill,
    [skill/scripts/ono-selfie.ts] (module [OnoSelfieTs]) and
    [skill/scripts/ono-selfie.sh] (module [OnoSelfieSh]), together with the
    base64 codec they rely on, and the properties their specification
    states about them. *)

From Stdlib Require Import List String Ascii Bool NArith ZArith Lia Zify.
From Stdlib.Strings Require Import Byte.
From Stdlib Require Import DecimalString.
Import ListNotations.

Local Open Scope string_scope.
Local Open Scope N_scope.

(** ** Text helpers *)

Module Text.

(** ASCII case folding: the case folding of the C locale, which changes
    the ASCII letters and no other byte. *)
Definition lower (c : ascii) : ascii :=
  let n := N_of_ascii c in
  if (65 <=? n) && (n <=? 90) then ascii_of_N (n + 32) else c.

Fixpoint lower_string (s : string) : string :=
  match s with
  | EmptyString => EmptyString
  | String c r => String (lower c) (lower_string r)
  end.

(** [starts_with p s]: [s.startsWith(p)]. *)
Fixpoint starts_with (p s : string) : bool :=
  match p, s with
  | EmptyString, _ => true
  | String _ _, EmptyString => false
  | String a p', String b s' => Ascii.eqb a b && starts_with p' s'
  end.

(** [contains k s]: [k] occurs in [s] as a substring. *)
Fixpoint contains (k s : string) : bool :=
  starts_with k s ||
  match s with
  | EmptyString => false
  | String _ r => contains k r
  end.

(** Case-insensitive occurrence. *)
Definition contains_ci (k s : string) : bool :=
  contains (lower_string k) (lower_string s).

Definition newline : ascii := ascii_of_N 10.

(** The lines of a text: the segments between newline characters. *)
Fixpoint lines (s : string) : list string :=
  match s with
  | EmptyString => [EmptyString]
  | String c r =>
      if Ascii.eqb c newline then EmptyString :: lines r
      else match lines r with
           | [] => [String c EmptyString]
           | l :: ls => String c l :: ls
           end
  end.

(** Decimal rendering of a natural number, as a template literal or
    [date +%s] prints it. *)
Definition decimal (n : N) : string := NilZero.string_of_uint (N.to_uint n).

(** Position of the first occurrence of a character, [-1] when there is
    none: [s.indexOf(c)]. *)
Fixpoint indexOf (c : ascii) (s : string) : Z :=
  match s with
  | EmptyString => (-1)%Z
  | String d r =>
      if Ascii.eqb c d then 0%Z
      else let i := indexOf c r in
           if (i <? 0)%Z then (-1)%Z else (i + 1)%Z
  end.

(** [s.substring(a, b)]: both indices are clamped to [0, length] and
    swapped when the first exceeds the second. *)
Definition js_substring (s : string) (a b : Z) : string :=
  let len := Z.of_nat (String.length s) in
  let clamp x := Z.max 0 (Z.min x len) in
  let a' := clamp a in
  let b' := clamp b in
  let lo := Z.min a' b' in
  let hi := Z.max a' b' in
  String.substring (Z.to_nat lo) (Z.to_nat (hi - lo)) s.

(** [\w] of a JavaScript regular expression without the [u] flag. *)
Definition is_word (c : ascii) : bool :=
  let n := N_of_ascii c in
  ((48 <=? n) && (n <=? 57)) || ((65 <=? n) && (n <=? 90))
  || ((97 <=? n) && (n <=? 122)) || (n =? 95).

(** Removes every trailing newline, as command substitution [$(...)] does. *)
Fixpoint strip_trailing_newlines (s : string) : string :=
  match s with
  | EmptyString => EmptyString
  | String c r =>
      match strip_trailing_newlines r with
      | EmptyString => if Ascii.eqb c newline then EmptyString else String c EmptyString
      | r' => String c r'
      end
  end.

End Text.

(** ** Base64 (RFC 4648), the encoding of the image payload

    The scripts call library decoders: Node's [Buffer] through
    [fs.writeFileSync(path, data, 'base64')], and [base64 --decode] of
    coreutils.  Both are written out here, with the encoder of RFC 4648
    that produces the payload. *)

Module Base64.

Definition alphabet : string :=
  "ABCDEFGHIJKLMNOPQRSTUVWXYZabcdefghijklmnopqrstuvwxyz0123456789+/".

Definition pad : ascii := "="%char.

(** The character of a 6-bit value. *)
Definition digit (n : N) : ascii :=
  match String.get (N.to_nat n) alphabet with
  | Some c => c
  | None => pad
  end.

Definition byte_of_N (n : N) : byte :=
  match Byte.of_N (n mod 256) with
  | Some b => b
  | None => x00
  end.

(** The encoder of the image service: three bytes become four digits, a
    final group of one or two bytes is padded with [=]. *)
Fixpoint encode (bs : list byte) : string :=
  match bs with
  | [] => EmptyString
  | [a] =>
      let x := Byte.to_N a in
      String (digit (x / 4)) (String (digit ((x mod 4) * 16))
        (String pad (String pad EmptyString)))
  | [a; b] =>
      let x := Byte.to_N a in
      let y := Byte.to_N b in
      String (digit (x / 4)) (String (digit ((x mod 4) * 16 + y / 16))
        (String (digit ((y mod 16) * 4)) (String pad EmptyString)))
  | a :: b :: c :: rest =>
      let x := Byte.to_N a in
      let y := Byte.to_N b in
      let z := Byte.to_N c in
      String (digit (x / 4)) (String (digit ((x mod 4) * 16 + y / 16))
        (String (digit ((y mod 16) * 4 + z / 64))
          (String (digit (z mod 64)) (encode rest))))
  end.

(** The 6-bit value of a character, for the decoder of Node's [Buffer]:
    it reads the URL-safe digits [-] and [_] as well. *)
Definition unbase64 (c : ascii) : option N :=
  let n := N_of_ascii c in
  if (65 <=? n) && (n <=? 90) then Some (n - 65)
  else if (97 <=? n) && (n <=? 122) then Some (n - 71)
  else if (48 <=? n) && (n <=? 57) then Some (n + 4)
  else if (n =? 43) || (n =? 45) then Some 62
  else if (n =? 47) || (n =? 95) then Some 63
  else None.

(** Node's decoder skips every character that is not a digit and stops at
    the first [=]. *)
Fixpoint sextets (s : string) : list N :=
  match s with
  | EmptyString => []
  | String c r =>
      if Ascii.eqb c pad then []
      else match unbase64 c with
           | Some n => n :: sextets r
           | None => sextets r
           end
  end.

(** Four digits give three bytes; two or three trailing digits give one or
    two bytes, a single trailing digit gives none. *)
Fixpoint bytes_of_sextets (l : list N) : list byte :=
  match l with
  | a :: b :: c :: d :: rest =>
      byte_of_N (a * 4 + b / 16) :: byte_of_N ((b mod 16) * 16 + c / 4)
        :: byte_of_N ((c mod 4) * 64 + d) :: bytes_of_sextets rest
  | [a; b; c] => [byte_of_N (a * 4 + b / 16); byte_of_N ((b mod 16) * 16 + c / 4)]
  | [a; b] => [byte_of_N (a * 4 + b / 16)]
  | _ => []
  end.

(** [Buffer.from(s, 'base64')]. *)
Definition decode (s : string) : list byte := bytes_of_sextets (sextets s).

(** The 6-bit value of a character of the standard alphabet only, for
    [base64 --decode]. *)
Definition unbase64_std (c : ascii) : option N :=
  let n := N_of_ascii c in
  if (n =? 45) || (n =? 95) then None else unbase64 c.

Fixpoint remove_newlines (s : string) : string :=
  match s with
  | EmptyString => EmptyString
  | String c r =>
      if Ascii.eqb c Text.newline then remove_newlines r
      else String c (remove_newlines r)
  end.

(** Canonical padded input, four characters at a time; [None] on anything
    else. *)
Fixpoint decode_groups (s : string) : option (list byte) :=
  match s with
  | EmptyString => Some []
  | String c1 (String c2 (String c3 (String c4 rest))) =>
      match unbase64_std c1, unbase64_std c2 with
      | Some a, Some b =>
          if Ascii.eqb c4 pad then
            match rest with
            | EmptyString =>
                if Ascii.eqb c3 pad then
                  if b mod 16 =? 0 then Some [byte_of_N (a * 4 + b / 16)] else None
                else
                  match unbase64_std c3 with
                  | Some c =>
                      if c mod 4 =? 0
                      then Some [byte_of_N (a * 4 + b / 16);
                                 byte_of_N ((b mod 16) * 16 + c / 4)]
                      else None
                  | None => None
                  end
            | String _ _ => None
            end
          else
            match unbase64_std c3, unbase64_std c4, decode_groups rest with
            | Some c, Some d, Some bs =>
                Some (byte_of_N (a * 4 + b / 16) :: byte_of_N ((b mod 16) * 16 + c / 4)
                        :: byte_of_N ((c mod 4) * 64 + d) :: bs)
            | _, _, _ => None
            end
      | _, _ => None
      end
  | _ => None
  end.

(** [base64 --decode] on canonical padded input: newlines are ignored and
    the rest is decoded group by group.  [None] stands for every other
    input, part of which [base64 --decode] accepts as well. *)
Definition decode_strict (s : string) : option (list byte) :=
  decode_groups (remove_newlines s).

End Base64.

(** ** JavaScript values, as [response.json()] yields them *)

Module Js.

(** JSON numbers are restricted to integers. *)
#[local] Set Warnings "-register-all".
Inductive value : Type :=
| Undefined
| Null
| Bool (b : bool)
| Num (n : Z)
| Str (s : string)
| Arr (items : list value)
| Obj (fields : list (string * value)).

Inductive exn : Type :=
| Error (message : string)
| TypeError (message : string)
| SyntaxError (message : string)
| Rejected (message : string).

Inductive result (A : Type) : Type :=
| Ok (a : A)
| Throw (e : exn).

Arguments Ok {A} a.
Arguments Throw {A} e.

(** [!!v]. *)
Definition truthy (v : value) : bool :=
  match v with
  | Undefined | Null => false
  | Bool b => b
  | Num n => negb (n =? 0)%Z
  | Str s => negb (String.eqb s EmptyString)
  | Arr _ | Obj _ => true
  end.

(** Truthiness of an optional string such as [process.env.X]. *)
Definition truthy_string (s : option string) : bool :=
  match s with
  | Some s => negb (String.eqb s EmptyString)
  | None => false
  end.

Definition decimalZ (n : Z) : string := NilZero.string_of_int (Z.to_int n).

(** [String(v)], the conversion of a template literal; an array is joined
    with commas, [null] and [undefined] items printing as nothing. *)
Fixpoint to_string (v : value) : string :=
  match v with
  | Undefined => "undefined"
  | Null => "null"
  | Bool true => "true"
  | Bool false => "false"
  | Num n => decimalZ n
  | Str s => s
  | Arr items =>
      let item x := match x with Undefined | Null => EmptyString | _ => to_string x end in
      (fix join (l : list value) : string :=
         match l with
         | [] => EmptyString
         | [x] => item x
         | x :: r => item x ++ "," ++ join r
         end) items
  | Obj _ => "[object Object]"
  end.

Fixpoint find (name : string) (fields : list (string * value)) : option value :=
  match fields with
  | [] => None
  | (k, v) :: r => if String.eqb k name then Some v else find name r
  end.

(** [v.name] for a property name that is not an array index. *)
Definition prop (v : value) (name : string) : result value :=
  match v with
  | Undefined =>
      Throw (TypeError ("Cannot read properties of undefined (reading '" ++ name ++ "')"))
  | Null =>
      Throw (TypeError ("Cannot read properties of null (reading '" ++ name ++ "')"))
  | Obj fields =>
      match find name fields with
      | Some x => Ok x
      | None => Ok Undefined
      end
  | Arr items =>
      if String.eqb name "length" then Ok (Num (Z.of_nat (List.length items)))
      else Ok Undefined
  | Str s =>
      if String.eqb name "length" then Ok (Num (Z.of_nat (String.length s)))
      else Ok Undefined
  | Bool _ | Num _ => Ok Undefined
  end.

(** [v[0]]. *)
Definition index0 (v : value) : result value :=
  match v with
  | Undefined => Throw (TypeError "Cannot read properties of undefined (reading '0')")
  | Null => Throw (TypeError "Cannot read properties of null (reading '0')")
  | Obj fields =>
      match find "0" fields with
      | Some x => Ok x
      | None => Ok Undefined
      end
  | Arr items =>
      match items with
      | x :: _ => Ok x
      | [] => Ok Undefined
      end
  | Str s =>
      match s with
      | String c _ => Ok (Str (String c EmptyString))
      | EmptyString => Ok Undefined
      end
  | Bool _ | Num _ => Ok Undefined
  end.

(** [v === 0]. *)
Definition is_zero (v : value) : bool :=
  match v with
  | Num n => (n =? 0)%Z
  | _ => false
  end.

End Js.

(** ** skill/scripts/ono-selfie.ts *)

Module OnoSelfieTs.

Import Js.

Record OnoImageInput : Type := {
  prompt : string;
  num_images : option Z;
  aspect_ratio : option string;
  output_format : option string
}.

Record OpenClawMessage : Type := {
  action : string;
  channel : string;
  message : string;
  media : option string
}.

Record GenerateAndSendOptions : Type := {
  opt_prompt : string;
  opt_channel : string;
  opt_caption : option string;
  opt_aspectRatio : option string;
  opt_outputFormat : option string;
  opt_useOpenClawCLI : option bool
}.

Record Result : Type := {
  success : bool;
  imageUrl : string;
  res_channel : string;
  res_prompt : string
}.

(** The request body of the image service,
    [{instances: [{prompt}], parameters: {sampleCount, aspectRatio,
    outputOptions: {mimeType}}}]. *)
Record payload : Type := {
  instances_prompt : string;
  sampleCount : Z;
  aspectRatio : string;
  outputOptions_mimeType : string
}.

(** What [JSON.stringify] is applied to in a request. *)
Inductive body : Type :=
| GenerateBody (p : payload)
| MessageBody (m : OpenClawMessage).

Record request : Type := {
  url : string;
  method : string;
  headers : list (string * string);
  req_body : body
}.

(** A response; [json] is [None] when the body does not parse. *)
Record response : Type := {
  ok : bool;
  status : Z;
  statusText : string;
  text : string;
  json : option value
}.

(** The surroundings of a run: the environment, the clock, the network,
    the file system and the process launcher. *)
Record world : Type := {
  env : string -> option string;
  now : N;
  fetch : request -> option response;
  write_ok : string -> bool;
  exec_ok : string -> bool
}.

(** The observable effects of a run, in the order they happen. *)
Inductive event : Type :=
| Fetch (r : request)
| WriteFile (path : string) (data : list byte)
| Exec (cmd : string).

(** Computations that may throw and that extend the trace of effects. *)
Definition M (A : Type) : Type := list event -> result A * list event.

Definition ret {A : Type} (a : A) : M A := fun t => (Ok a, t).

Definition throw {A : Type} (e : exn) : M A := fun t => (Throw e, t).

Definition bind {A B : Type} (m : M A) (k : A -> M B) : M B :=
  fun t =>
    match m t with
    | (Ok a, t') => k a t'
    | (Throw e, t') => (Throw e, t')
    end.

Definition emit (e : event) : M unit := fun t => (Ok tt, (t ++ [e])%list).

Definition lift {A : Type} (r : result A) : M A := fun t => (r, t).

Notation "x <- m ;; k" := (bind m (fun x => k))
  (at level 61, m at next level, right associativity).
Notation "m ;;; k" := (bind m (fun _ => k))
  (at level 61, right associativity).

Definition dquote : string := String (ascii_of_N 34) EmptyString.

Definition missing_key_message : string :=
  "GEMINI_API_KEY environment variable not set. Get your key from https://aistudio.google.com/app/apikey".

Section Run.

Variable w : world.

(** [await fetch(url, init)]. *)
Definition do_fetch (r : request) : M response :=
  emit (Fetch r) ;;;
  match fetch w r with
  | Some resp => ret resp
  | None => throw (Rejected "fetch failed")
  end.

(** [await response.json()]. *)
Definition do_json (r : response) : M value :=
  match json r with
  | Some v => ret v
  | None => throw (SyntaxError "Unexpected token in JSON")
  end.

(** [fs.writeFileSync(path, data, 'base64')]. *)
Definition writeFileSync_base64 (path data : string) : M unit :=
  emit (WriteFile path (Base64.decode data)) ;;;
  if write_ok w path then ret tt else throw (Rejected "write failed").

(** [await execAsync(cmd)]. *)
Definition execAsync (cmd : string) : M unit :=
  emit (Exec cmd) ;;;
  if exec_ok w cmd then ret tt else throw (Rejected "Command failed").

Definition mime_of_format (output_format : option string) : string :=
  match output_format with
  | Some f => if String.eqb f "png" then "image/png" else "image/jpeg"
  | None => "image/jpeg"
  end.

Definition endpoint (apiKey : string) : string :=
  "https://generativelanguage.googleapis.com/v1beta/models/imagen-4.0-fast-generate-001:predict?key="
  ++ apiKey.

Definition build_payload (input : OnoImageInput) : payload :=
  {| instances_prompt := prompt input;
     sampleCount :=
       match num_images input with
       | Some n => if (n =? 0)%Z then 1%Z else n
       | None => 1%Z
       end;
     aspectRatio :=
       match aspect_ratio input with
       | Some a => if String.eqb a EmptyString then "1:1" else a
       | None => "1:1"
       end;
     outputOptions_mimeType := mime_of_format (output_format input) |}.

(** The request [fetch(endpoint, {method, headers, body})] of [generateImage]. *)
Definition generate_request (apiKey : string) (input : OnoImageInput) : request :=
  {| url := endpoint apiKey;
     method := "POST";
     headers := [("Content-Type", "application/json")];
     req_body := GenerateBody (build_payload input) |}.

Definition generateImage (input : OnoImageInput) : M string :=
  let apiKey := env w "GEMINI_API_KEY" in
  match apiKey with
  | Some key =>
      if String.eqb key EmptyString then
        throw (Error missing_key_message)
      else
        resp <- do_fetch (generate_request key input) ;;
        if negb (ok resp) then
          throw (Error ("Image generation failed: " ++ decimalZ (status resp) ++ " "
                        ++ statusText resp ++ " - " ++ text resp))
        else
          data <- do_json resp ;;
          predictions <- lift (prop data "predictions") ;;
          if negb (truthy predictions) then
            throw (Error "No predictions returned from Gemini API")
          else
            len <- lift (prop predictions "length") ;;
            if is_zero len then
              throw (Error "No predictions returned from Gemini API")
            else
              first <- lift (index0 predictions) ;;
              base64Image <- lift (prop first "bytesBase64Encoded") ;;
              first' <- lift (index0 predictions) ;;
              m <- lift (prop first' "mimeType") ;;
              let mimeType :=
                if truthy m then m else Str (mime_of_format (output_format input)) in
              ret ("data:" ++ to_string mimeType ++ ";base64," ++ to_string base64Image)
  | None =>
      throw (Error missing_key_message)
  end.

Fixpoint strip_prefix (p s : string) : option string :=
  match p, s with
  | EmptyString, _ => Some s
  | String _ _, EmptyString => None
  | String a p', String b s' => if Ascii.eqb a b then strip_prefix p' s' else None
  end.

Fixpoint skip_word (s : string) : string :=
  match s with
  | EmptyString => EmptyString
  | String c r => if Text.is_word c then skip_word r else s
  end.

(** [s.replace(/^data:image\/\w+;base64,/, "")]: the run of word characters
    is followed by [;], which is not one, so the match is unique. *)
Definition replace_data_prefix (s : string) : string :=
  match strip_prefix "data:image/" s with
  | Some (String c r) =>
      if Text.is_word c then
        match strip_prefix ";base64," (skip_word r) with
        | Some rest => rest
        | None => s
        end
      else s
  | _ => s
  end.

Definition temp_file (mediaContent : string) : string :=
  let ext := Text.js_substring mediaContent
               (Text.indexOf "/" mediaContent + 1) (Text.indexOf ";" mediaContent) in
  "/tmp/ono-selfie-" ++ Text.decimal (now w) ++ "." ++ ext.

Definition option_to_string (s : option string) : string :=
  match s with
  | Some s => s
  | None => "undefined"
  end.

Definition cli_command (message : OpenClawMessage) (mediaArg : option string) : string :=
  "openclaw message send --action send --channel " ++ dquote ++ channel message ++ dquote
  ++ " --message " ++ dquote ++ OnoSelfieTs.message message ++ dquote
  ++ " --media " ++ dquote ++ option_to_string mediaArg ++ dquote.

Definition gateway_request (message : OpenClawMessage) : request :=
  let gatewayUrl :=
    match env w "OPENCLAW_GATEWAY_URL" with
    | Some u => if String.eqb u EmptyString then "http://localhost:18789" else u
    | None => "http://localhost:18789"
    end in
  let gatewayToken := env w "OPENCLAW_GATEWAY_TOKEN" in
  let headers0 := [("Content-Type", "application/json")] in
  let headers1 :=
    match gatewayToken with
    | Some tok =>
        if String.eqb tok EmptyString then headers0
        else List.app headers0 [("Authorization", "Bearer " ++ tok)]
    | None => headers0
    end in
  {| url := gatewayUrl ++ "/message";
     method := "POST";
     headers := headers1;
     req_body := MessageBody {| action := action message;
                                channel := channel message;
                                message := OnoSelfieTs.message message;
                                media := media message |} |}.

Definition sendViaOpenClaw (message : OpenClawMessage) (useCLI : bool) : M unit :=
  let mediaContent := media message in
  mediaArg <-
    match mediaContent with
    | Some m =>
        if Text.starts_with "data:" m then
          let base64Data := replace_data_prefix m in
          let tempFile := temp_file m in
          writeFileSync_base64 tempFile base64Data ;;;
          ret (Some tempFile)
        else ret mediaContent
    | None => ret mediaContent
    end ;;
  if useCLI then
    execAsync (cli_command message mediaArg)
  else
    resp <- do_fetch (gateway_request message) ;;
    if negb (ok resp) then throw (Error ("OpenClaw send failed: " ++ text resp))
    else ret tt.

(** The effect by which [sendViaOpenClaw] hands the message over, for the
    media argument it computed. *)
Definition dispatch_event (message : OpenClawMessage) (mediaArg : option string)
           (useCLI : bool) : event :=
  if useCLI then Exec (cli_command message mediaArg)
  else Fetch (gateway_request message).

Definition default {A : Type} (d : A) (o : option A) : A :=
  match o with
  | Some a => a
  | None => d
  end.

(** The argument [generateAndSend] passes to [generateImage]. *)
Definition image_input (options : GenerateAndSendOptions) : OnoImageInput :=
  {| prompt := opt_prompt options;
     num_images := Some 1%Z;
     aspect_ratio := Some (default "1:1" (opt_aspectRatio options));
     output_format := Some (default "jpeg" (opt_outputFormat options)) |}.

(** The message [generateAndSend] passes to [sendViaOpenClaw]. *)
Definition image_message (options : GenerateAndSendOptions) (imageUrl : string)
  : OpenClawMessage :=
  {| action := "send";
     channel := opt_channel options;
     message := default "Generated with Google Gemini" (opt_caption options);
     media := Some imageUrl |}.

Definition generateAndSend (options : GenerateAndSendOptions) : M Result :=
  let prompt := opt_prompt options in
  let channel := opt_channel options in
  let useOpenClawCLI := default true (opt_useOpenClawCLI options) in
  imageUrl <- generateImage (image_input options) ;;
  sendViaOpenClaw (image_message options imageUrl) useOpenClawCLI ;;;
  ret {| success := true;
         imageUrl := Text.js_substring imageUrl 0 50 ++ "...";
         res_channel := channel;
         res_prompt := prompt |}.

(** The command-line entry point: the exit status and the effects of the
    process started with the given arguments. *)
Definition main (args : list string) : Z * list event :=
  match args with
  | prompt :: channel :: rest =>
      match generateAndSend {| opt_prompt := prompt;
                               opt_channel := channel;
                               opt_caption := nth_error rest 0;
                               opt_aspectRatio := nth_error rest 1;
                               opt_outputFormat := nth_error rest 2;
                               opt_useOpenClawCLI := None |} [] with
      | (Ok _, t) => (0%Z, t)
      | (Throw _, t) => (1%Z, t)
      end
  | _ => (1%Z, [])
  end.

End Run.

End OnoSelfieTs.

(** ** skill/scripts/ono-selfie.sh *)

Module OnoSelfieSh.

(** [echo "$input" | grep -q[i]E "a|b|..."] for alternatives that are plain
    words: some line of the input has an occurrence of one of them.
    [occurs k line] says whether a line has an occurrence of the word [k]:
    [Text.contains] without [-i]; with [-i] it is up to the case folding of
    the caller's locale, which the script does not set, so that it comes
    from the surroundings.  (An input that [echo] takes for one of its
    options, such as [-n], prints no line; it contains no letter other than
    [n] and [e], hence none of the words searched for here.) *)
Definition grep_q (occurs : string -> string -> bool) (alternatives : list string)
           (input : string) : bool :=
  existsb
    (fun line => existsb (fun k => occurs k line) alternatives)
    (Text.lines input).

Definition mirror_keywords : list string :=
  ["outfit"; "wearing"; "clothes"; "dress"; "suit"; "fashion"; "full-body"; "mirror"].

Definition direct_keywords : list string :=
  ["cafe"; "restaurant"; "beach"; "park"; "city"; "close-up"; "portrait"; "face";
   "eyes"; "smile"].

(** The value of [MODE] after the auto-detection block, for the way
    [grep -i] compares in the caller's locale. *)
Definition MODE_in (occurs_i : string -> string -> bool) (mode user_context : string)
  : string :=
  if String.eqb mode "auto" then
    if grep_q occurs_i mirror_keywords user_context then "mirror"
    else if grep_q occurs_i direct_keywords user_context then "direct"
    else "mirror"
  else mode.

(** [MODE] in the C locale, where [grep -i] folds the case of the ASCII
    letters and of nothing else. *)
Definition MODE (mode user_context : string) : string :=
  MODE_in Text.contains_ci mode user_context.

Definition BASE_DESCRIPTION : string := "a young woman with long dark hair".

Definition GEN_PROMPT (mode user_context : string) : string :=
  if String.eqb mode "direct" then
    "a photorealistic close-up selfie of " ++ BASE_DESCRIPTION ++ " at " ++ user_context
    ++ ", direct eye contact with the camera, looking straight into the lens, eyes centered and clearly visible, phone held at arm's length, face fully visible, 8k, highly detailed"
  else
    "a photorealistic mirror selfie of " ++ BASE_DESCRIPTION ++ ", " ++ user_context
    ++ ", full body shot, detailed background, 8k, highly detailed".

(** The body built by [jq -n --arg prompt ...]. *)
Record payload : Type := {
  instances_prompt : string;
  sampleCount : Z;
  aspectRatio : string;
  outputOptions_mimeType : string
}.

(** What [curl -s] prints: the text, and the JSON values that [jq] reads
    from it, in order, up to its end or to the first place where it is not
    JSON (the list is empty when the text does not start with a value, and
    has one element when the text is one JSON value). *)
Record curl_output : Type := {
  raw : string;
  parsed : list Js.value
}.

(** The surroundings of a run.  [grep_i k line] says whether [grep -i]
    finds the word [k] in a line, which the locale of the caller decides;
    [jq_text] is the text [jq] prints for a result that is neither a string
    nor [null]; [base64_other] is what [base64 --decode] writes for input
    that is not canonical padded base64 (some of it is decoded, the rest is
    refused after a part has been written). *)
Record world : Type := {
  GEMINI_API_KEY : string;
  date : N;
  grep_i : string -> string -> bool;
  curl : string -> payload -> curl_output;
  jq_text : Js.value -> string;
  base64_other : string -> list byte
}.

Inductive event : Type :=
| Curl (api_url : string) (p : payload)
| WriteFile (path : string) (data : list byte)
| Openclaw (channel caption media : string).

(** [.name] of a [jq] filter: [None] is a run-time error of [jq]. *)
Definition jq_field (name : string) (v : Js.value) : option Js.value :=
  match v with
  | Js.Obj fields =>
      match Js.find name fields with
      | Some x => Some x
      | None => Some Js.Null
      end
  | Js.Null => Some Js.Null
  | _ => None
  end.

(** [.[0]] of a [jq] filter. *)
Definition jq_first (v : Js.value) : option Js.value :=
  match v with
  | Js.Arr (x :: _) => Some x
  | Js.Arr [] => Some Js.Null
  | Js.Null => Some Js.Null
  | _ => None
  end.

Definition option_bind {A B : Type} (o : option A) (f : A -> option B) : option B :=
  match o with
  | Some a => f a
  | None => None
  end.

Section Run.

Variable w : world.

(** What [jq -r '.predictions[0].bytesBase64Encoded'] prints for one value
    it has read: nothing when the filter fails on it, otherwise one line. *)
Definition jq_line (v : Js.value) : string :=
  match option_bind (option_bind (jq_field "predictions" v) jq_first)
                    (jq_field "bytesBase64Encoded") with
  | None => EmptyString
  | Some (Js.Str s) => s ++ String Text.newline EmptyString
  | Some Js.Null => "null" ++ String Text.newline EmptyString
  | Some x => jq_text w x ++ String Text.newline EmptyString
  end.

(** The output of [jq -r '.predictions[0].bytesBase64Encoded']: [jq] runs
    the filter on each value it reads, going on after a value on which the
    filter fails, and stops where the text is not JSON; what it has printed
    by then stays printed. *)
Definition jq_r (response : curl_output) : string :=
  fold_right (fun v printed => jq_line v ++ printed) EmptyString (parsed response).

(** [BASE64_IMAGE=$(echo "$RESPONSE" | jq -r ...)]. *)
Definition BASE64_IMAGE (response : curl_output) : string :=
  Text.strip_trailing_newlines (jq_r response).

Definition TEMP_FILE : string :=
  "/tmp/ono-selfie-" ++ Text.decimal (date w) ++ ".jpeg".

(** The bytes that [echo "$BASE64_IMAGE" | base64 --decode] writes. *)
Definition decoded (base64_image : string) : list byte :=
  let input := base64_image ++ String Text.newline EmptyString in
  match Base64.decode_strict input with
  | Some bs => bs
  | None => base64_other w input
  end.

Definition API_URL : string :=
  "https://generativelanguage.googleapis.com/v1beta/models/imagen-4.0-fast-generate-001:predict?key="
  ++ GEMINI_API_KEY w.

(** The script: its exit status and its effects, for the given positional
    parameters. *)
Definition script (args : list string) : Z * list event :=
  if String.eqb (GEMINI_API_KEY w) EmptyString then (1%Z, [])
  else
    let USER_CONTEXT := nth 0 args EmptyString in
    let CHANNEL := nth 1 args EmptyString in
    let MODE0 := if String.eqb (nth 2 args EmptyString) EmptyString then "auto"
                 else nth 2 args EmptyString in
    let CAPTION := if String.eqb (nth 3 args EmptyString) EmptyString
                   then "Generated with Google Gemini"
                   else nth 3 args EmptyString in
    if String.eqb USER_CONTEXT EmptyString || String.eqb CHANNEL EmptyString then (1%Z, [])
    else
      let mode := MODE_in (grep_i w) MODE0 USER_CONTEXT in
      let JSON_PAYLOAD := {| instances_prompt := GEN_PROMPT mode USER_CONTEXT;
                             sampleCount := 1%Z;
                             aspectRatio := "1:1";
                             outputOptions_mimeType := "image/jpeg" |} in
      let RESPONSE := curl w API_URL JSON_PAYLOAD in
      let t1 := [Curl API_URL JSON_PAYLOAD] in
      if grep_q Text.contains ["error"] (raw RESPONSE) then (1%Z, t1)
      else
        let image := BASE64_IMAGE RESPONSE in
        if String.eqb image "null" || String.eqb image EmptyString then (1%Z, t1)
        else
          (0%Z, [Curl API_URL JSON_PAYLOAD;
                 WriteFile TEMP_FILE (decoded image);
                 Openclaw CHANNEL CAPTION TEMP_FILE]).

End Run.

End OnoSelfieSh.

(** ** The specification's own wording *)

Module Spec.

(** The keyword sets of the Mode Selector as the specification lists them. *)
Definition mirror_set : list string :=
  ["outfit"; "wearing"; "clothes"; "dress"; "suit"; "fashion"; "full-body"; "mirror";
   "reflection"].

Definition direct_set : list string :=
  ["cafe"; "restaurant"; "beach"; "park"; "city"; "close-up"; "portrait"; "face";
   "eyes"; "smile"].

(** A text contains, case-insensitively, some keyword of a set. *)
Definition has_keyword (set : list string) (s : string) : bool :=
  existsb (fun k => Text.contains_ci k s) set.

End Spec.

(** ** Classification of the effects of the TypeScript pipeline *)

(** A write to the file system. *)
Definition is_write (e : OnoSelfieTs.event) : bool :=
  match e with
  | OnoSelfieTs.WriteFile _ _ => true
  | _ => false
  end.

(** A dispatch to the messaging gateway, by either transport. *)
Definition is_dispatch (e : OnoSelfieTs.event) : bool :=
  match e with
  | OnoSelfieTs.Exec _ => true
  | OnoSelfieTs.Fetch r =>
      match OnoSelfieTs.req_body r with
      | OnoSelfieTs.MessageBody _ => true
      | OnoSelfieTs.GenerateBody _ => false
      end
  | OnoSelfieTs.WriteFile _ _ => false
  end.

(** The outcome of the hand-over of [sendViaOpenClaw], for the media
    argument it computed. *)
Definition dispatch_result (w : OnoSelfieTs.world) (message : OnoSelfieTs.OpenClawMessage)
           (mediaArg : option string) (useCLI : bool) : Js.result unit :=
  if useCLI then
    if OnoSelfieTs.exec_ok w (OnoSelfieTs.cli_command message mediaArg)
    then Js.Ok tt else Js.Throw (Js.Rejected "Command failed")
  else
    match OnoSelfieTs.fetch w (OnoSelfieTs.gateway_request w message) with
    | Some resp =>
        if OnoSelfieTs.ok resp then Js.Ok tt
        else Js.Throw (Js.Error ("OpenClaw send failed: " ++ OnoSelfieTs.text resp))
    | None => Js.Throw (Js.Rejected "fetch failed")
    end.

(** A response from which the shell script extracts no payload: [jq]
    reads no value from it, or it is one JSON object without predictions,
    with an empty array of them, or whose first prediction has no payload,
    a [null] one or an empty one. *)
Definition sh_no_payload (parsed : list Js.value) : Prop :=
  parsed = []
  \/ exists top,
       parsed = [Js.Obj top]
       /\ (Js.find "predictions" top = None
           \/ Js.find "predictions" top = Some (Js.Arr [])
           \/ exists fields rest,
                Js.find "predictions" top = Some (Js.Arr (Js.Obj fields :: rest))
                /\ (Js.find "bytesBase64Encoded" fields = None
                    \/ Js.find "bytesBase64Encoded" fields = Some Js.Null
                    \/ Js.find "bytesBase64Encoded" fields = Some (Js.Str EmptyString))).

(** The caller's locale is the C locale (or one that compares alike):
    [grep -i] folds the case of the ASCII letters and of nothing else. *)
Definition c_locale (occurs_i : string -> string -> bool) : Prop :=
  forall k line, occurs_i k line = Text.contains_ci k line.

(** The character does not occur in the text. *)
Fixpoint free_of (c : ascii) (s : string) : bool :=
  match s with
  | EmptyString => true
  | String d r => negb (Ascii.eqb c d) && free_of c r
  end.

(** A JSON body without predictions: the field is missing, or it is the
    empty array. *)
Definition no_predictions (data : Js.value) : Prop :=
  Js.prop data "predictions" = Js.Ok Js.Undefined
  \/ Js.prop data "predictions" = Js.Ok (Js.Arr []).

(** Every character of the text is a word character. *)
Fixpoint all_word (s : string) : bool :=
  match s with
  | EmptyString => true
  | String c r => Text.is_word c && all_word r
  end.

(** No character of the text is a newline. *)
Fixpoint newline_free (s : string) : bool :=
  match s with
  | EmptyString => true
  | String c r => negb (Ascii.eqb c Text.newline) && newline_free r
  end.

(** ** Sample surroundings and responses *)

Module Examples.

Import Js.

Definition ok_response (data : value) : OnoSelfieTs.response :=
  {| OnoSelfieTs.ok := true;
     OnoSelfieTs.status := 200%Z;
     OnoSelfieTs.statusText := "OK";
     OnoSelfieTs.text := EmptyString;
     OnoSelfieTs.json := Some data |}.

(** A process environment holding at most the credential, a cooperative
    file system and gateway, and an image service answering [data]. *)
Definition ts_world (key : option string) (data : value) : OnoSelfieTs.world :=
  {| OnoSelfieTs.env := fun name => if String.eqb name "GEMINI_API_KEY" then key else None;
     OnoSelfieTs.now := 1700000000000;
     OnoSelfieTs.fetch := fun r =>
       match OnoSelfieTs.req_body r with
       | OnoSelfieTs.GenerateBody _ => Some (ok_response data)
       | OnoSelfieTs.MessageBody _ => Some (ok_response (Obj []))
       end;
     OnoSelfieTs.write_ok := fun _ => true;
     OnoSelfieTs.exec_ok := fun _ => true |}.

(** A shell run in the C locale whose service answers one JSON value. *)
Definition sh_world (key : string) (data : value) : OnoSelfieSh.world :=
  {| OnoSelfieSh.GEMINI_API_KEY := key;
     OnoSelfieSh.date := 1700000000;
     OnoSelfieSh.grep_i := Text.contains_ci;
     OnoSelfieSh.curl := fun _ _ =>
       {| OnoSelfieSh.raw := "{...}"; OnoSelfieSh.parsed := [data] |};
     OnoSelfieSh.jq_text := fun _ => "{}";
     OnoSelfieSh.base64_other := fun _ => [] |}.

(** [{"predictions": [{}]}]: a first prediction without payload. *)
Definition missing_payload : value := Obj [("predictions", Arr [Obj []])].

(** [{"predictions": [{"bytesBase64Encoded": ""}]}]. *)
Definition empty_payload : value :=
  Obj [("predictions", Arr [Obj [("bytesBase64Encoded", Str EmptyString)]])].

(** [{"predictions": [{"bytesBase64Encoded": "QUJD"}]}], the bytes [ABC]. *)
Definition abc_payload : value :=
  Obj [("predictions", Arr [Obj [("bytesBase64Encoded", Str "QUJD")]])].

(** [{"predictions": []}]. *)
Definition empty_predictions : value := Obj [("predictions", Arr [])].

Definition sample_input : OnoSelfieTs.OnoImageInput :=
  {| OnoSelfieTs.prompt := "a cozy cafe";
     OnoSelfieTs.num_images := None;
     OnoSelfieTs.aspect_ratio := None;
     OnoSelfieTs.output_format := None |}.

Definition sample_options (useCLI : bool) : OnoSelfieTs.GenerateAndSendOptions :=
  {| OnoSelfieTs.opt_prompt := "a cozy cafe";
     OnoSelfieTs.opt_channel := "#general";
     OnoSelfieTs.opt_caption := None;
     OnoSelfieTs.opt_aspectRatio := None;
     OnoSelfieTs.opt_outputFormat := None;
     OnoSelfieTs.opt_useOpenClawCLI := Some useCLI |}.

Definition sample_message : OnoSelfieTs.OpenClawMessage :=
  {| OnoSelfieTs.action := "send";
     OnoSelfieTs.channel := "#general";
     OnoSelfieTs.message := "hello";
     OnoSelfieTs.media := Some "data:image/jpeg;base64,QUJD" |}.

(** A run in which everything succeeds, on the image [ABC]. *)
Definition abc_world : OnoSelfieTs.world := ts_world (Some "k") abc_payload.

(** Surroundings in which the image service and the gateway answer as
    given ([None]: the connection fails), and writes and launches succeed
    or fail as given. *)
Definition world_of (key : option string) (generation gateway : option OnoSelfieTs.response)
           (write exec : bool) : OnoSelfieTs.world :=
  {| OnoSelfieTs.env := fun name => if String.eqb name "GEMINI_API_KEY" then key else None;
     OnoSelfieTs.now := 1700000000000;
     OnoSelfieTs.fetch := fun r =>
       match OnoSelfieTs.req_body r with
       | OnoSelfieTs.GenerateBody _ => generation
       | OnoSelfieTs.MessageBody _ => gateway
       end;
     OnoSelfieTs.write_ok := fun _ => write;
     OnoSelfieTs.exec_ok := fun _ => exec |}.

Definition error_response (code : Z) (reason body : string) : OnoSelfieTs.response :=
  {| OnoSelfieTs.ok := false;
     OnoSelfieTs.status := code;
     OnoSelfieTs.statusText := reason;
     OnoSelfieTs.text := body;
     OnoSelfieTs.json := None |}.

(** [{"predictions": [{"bytesBase64Encoded": "QUJD", "mimeType": "image/webp"}]}]. *)
Definition webp_payload : value :=
  Obj [("predictions",
        Arr [Obj [("bytesBase64Encoded", Str "QUJD"); ("mimeType", Str "image/webp")]])].

(** [{"predictions": [null]}]. *)
Definition null_prediction : value := Obj [("predictions", Arr [Null])].

(** A shell run in the C locale whose service answers the text [raw],
    from which [jq] reads the values [data]. *)
Definition sh_world_raw (key raw : string) (data : list value) : OnoSelfieSh.world :=
  {| OnoSelfieSh.GEMINI_API_KEY := key;
     OnoSelfieSh.date := 1700000000;
     OnoSelfieSh.grep_i := Text.contains_ci;
     OnoSelfieSh.curl := fun _ _ =>
       {| OnoSelfieSh.raw := raw; OnoSelfieSh.parsed := data |};
     OnoSelfieSh.jq_text := fun _ => "{}";
     OnoSelfieSh.base64_other := fun _ => [] |}.

(** [{"predictions": [{"bytesBase64Encoded": "QUJD", "mimeType": "image/svg+xml"}]}]. *)
Definition svg_payload : value :=
  Obj [("predictions",
        Arr [Obj [("bytesBase64Encoded", Str "QUJD"); ("mimeType", Str "image/svg+xml")]])].

End Examples.

(** * Properties *)

(** ** Lines and occurrences *)

Section TextFacts.

Import Text.

Lemma lines_nonempty (s : string) : lines s <> [].
Proof.
  destruct s as [|c r]; simpl; [discriminate|].
  destruct (Ascii.eqb c newline); [discriminate|].
  destruct (lines r); discriminate.
Qed.

Lemma starts_with_head_line (k s : string) :
  newline_free k = true ->
  starts_with k (hd EmptyString (lines s)) = starts_with k s.
Proof.
  revert s; induction k as [|a k IH]; intros s Hk; [reflexivity|].
  simpl in Hk. apply andb_prop in Hk as [Ha Hk].
  destruct s as [|c r]; [reflexivity|].
  simpl lines. destruct (Ascii.eqb c newline) eqn:Hc.
  - apply Ascii.eqb_eq in Hc; subst c. simpl.
    destruct (Ascii.eqb a newline); [discriminate|reflexivity].
  - specialize (IH r Hk).
    destruct (lines r) as [|l ls] eqn:Hl; [now apply lines_nonempty in Hl|].
    simpl in *. now rewrite IH.
Qed.

(** Searching line by line finds what searching the whole text finds, for
    a pattern without newline. *)
Lemma contains_lines (k s : string) :
  newline_free k = true ->
  existsb (contains k) (lines s) = contains k s.
Proof.
  intros Hk. induction s as [|c r IH].
  - simpl. now rewrite orb_false_r.
  - pose proof (starts_with_head_line k (String c r) Hk) as Hh.
    simpl lines in *. destruct (Ascii.eqb c newline) eqn:Hc.
    + simpl hd in Hh. simpl existsb. rewrite IH.
      change (contains k (String c r)) with (starts_with k (String c r) || contains k r).
      rewrite <- Hh. destruct k; simpl; [reflexivity|]. reflexivity.
    + destruct (lines r) as [|l ls] eqn:Hl; [now apply lines_nonempty in Hl|].
      simpl hd in Hh. simpl existsb in *.
      change (contains k (String c r)) with (starts_with k (String c r) || contains k r).
      change (contains k (String c l)) with (starts_with k (String c l) || contains k l).
      rewrite <- IH, Hh. now rewrite orb_assoc.
Qed.

Lemma lower_newline (c : ascii) :
  Ascii.eqb (lower c) newline = Ascii.eqb c newline.
Proof.
  destruct c as [[] [] [] [] [] [] [] []]; reflexivity.
Qed.

Lemma lines_lower (s : string) :
  lines (lower_string s) = map lower_string (lines s).
Proof.
  induction s as [|c r IH]; [reflexivity|].
  simpl. rewrite lower_newline, IH.
  destruct (Ascii.eqb c newline); [reflexivity|].
  destruct (lines r); reflexivity.
Qed.

Lemma existsb_swap {A B : Type} (f : A -> B -> bool) (la : list A) (lb : list B) :
  existsb (fun a => existsb (f a) lb) la = existsb (fun b => existsb (fun a => f a b) la) lb.
Proof.
  induction lb as [|b lb IH]; simpl.
  - induction la; simpl; auto.
  - rewrite <- IH. clear IH.
    induction la as [|a la IH]; simpl; [reflexivity|].
    rewrite IH.
    destruct (f a b), (existsb (f a) lb), (existsb (fun a0 => f a0 b) la); reflexivity.
Qed.

Lemma existsb_mapped {A B : Type} (f : B -> bool) (g : A -> B) (l : list A) :
  existsb f (map g l) = existsb (fun a => f (g a)) l.
Proof.
  induction l as [|a l IH]; simpl; [reflexivity|now rewrite IH].
Qed.

End TextFacts.

(** ** Mode Selector *)

Section ModeSelector.

Import OnoSelfieSh.

(** [grep -qiE] over the lines of the text decides whether the text
    contains one of the keywords, case-insensitively. *)
Lemma grep_q_ignore_case (keywords : list string) (s : string) :
  forallb (fun k => newline_free (Text.lower_string k)) keywords = true ->
  grep_q Text.contains_ci keywords s = Spec.has_keyword keywords s.
Proof.
  intros Hk. unfold grep_q, Spec.has_keyword.
  rewrite existsb_swap.
  induction keywords as [|k ks IH]; [reflexivity|].
  simpl in Hk. apply andb_prop in Hk as [Hk Hks].
  simpl. rewrite (IH Hks). f_equal.
  unfold Text.contains_ci.
  rewrite <- (contains_lines _ (Text.lower_string s) Hk), lines_lower.
  now rewrite existsb_mapped.
Qed.

Lemma grep_mirror (s : string) :
  grep_q Text.contains_ci mirror_keywords s = Spec.has_keyword mirror_keywords s.
Proof. apply grep_q_ignore_case. reflexivity. Qed.

Lemma grep_direct (s : string) :
  grep_q Text.contains_ci direct_keywords s = Spec.has_keyword Spec.direct_set s.
Proof. apply grep_q_ignore_case. reflexivity. Qed.


(** Auto-detection in terms of the keywords the script greps for. *)
Lemma MODE_auto (s : string) :
  MODE "auto" s =
  if Spec.has_keyword mirror_keywords s then "mirror"
  else if Spec.has_keyword Spec.direct_set s then "direct"
  else "mirror".
Proof.
  unfold MODE, MODE_in. rewrite grep_mirror, grep_direct. reflexivity.
Qed.

Lemma grep_q_ext (f g : string -> string -> bool) (keywords : list string) (s : string) :
  (forall k line, f k line = g k line) ->
  grep_q f keywords s = grep_q g keywords s.
Proof.
  intros H. unfold grep_q.
  assert (Hline : forall line,
             existsb (fun k => f k line) keywords = existsb (fun k => g k line) keywords).
  { intros line. induction keywords as [|k ks IHk]; [reflexivity|].
    cbn [existsb]. now rewrite H, IHk. }
  induction (Text.lines s) as [|l ls IH]; [reflexivity|].
  cbn [existsb]. now rewrite IH, Hline.
Qed.

(** In the C locale the auto-detection is [MODE]. *)
Lemma MODE_in_c_locale (occurs_i : string -> string -> bool) (mode s : string) :
  c_locale occurs_i -> MODE_in occurs_i mode s = MODE mode s.
Proof.
  intros H. unfold MODE, MODE_in.
  now rewrite !(grep_q_ext occurs_i Text.contains_ci _ s H).
Qed.

(** A text with a keyword of neither set is given the default mode. *)
Lemma MODE_auto_default (s : string) :
  Spec.has_keyword Spec.mirror_set s = false ->
  Spec.has_keyword Spec.direct_set s = false ->
  MODE "auto" s = "mirror".
Proof.
  intros Hm Hd. rewrite MODE_auto, Hd.
  now destruct (Spec.has_keyword mirror_keywords s).
Qed.

(** The script's own mirror keywords do win over the direct ones. *)
Lemma MODE_auto_mirror_first (s : string) :
  Spec.has_keyword mirror_keywords s = true ->
  MODE "auto" s = "mirror".
Proof.
  intros Hm. now rewrite MODE_auto, Hm.
Qed.

(** C2: a text with the mirror-set keyword [reflection] and the direct-set
    keyword [beach] is classified [direct] by the script, not [mirror]:
    the script's pattern leaves [reflection] out. *)
Theorem C2_reflection_at_the_beach :
  Spec.has_keyword Spec.mirror_set "reflection at the beach" = true
  /\ Spec.has_keyword Spec.direct_set "reflection at the beach" = true
  /\ MODE "auto" "reflection at the beach" = "direct".
Proof. repeat split; vm_compute; reflexivity. Qed.



End ModeSelector.

(** ** Prompt Builder *)

Section PromptBuilder.

Import OnoSelfieSh.

(** The prompts the script builds are not the templates the specification
    quotes, for either mode. *)
Lemma C1_templates_differ :
  GEN_PROMPT "direct" "a cozy cafe with warm lighting"
  <> "a close-up selfie taken by herself at a cozy cafe with warm lighting, direct eye contact with the camera, looking straight into the lens, eyes centered and clearly visible, not a mirror selfie, phone held at arm's length, face fully visible"
  /\ GEN_PROMPT "mirror" "wearing a santa hat"
  <> "make a pic of this person, but wearing a santa hat. the person is taking a mirror selfie".
Proof. split; vm_compute; discriminate. Qed.

(** C1 (amended): for every context the prompt for mode [direct] is the
    photorealistic close-up template around the base description and the
    context, and the prompt for mode [mirror] is the photorealistic mirror
    template around them. *)
Theorem C1_templates (context : string) :
  GEN_PROMPT "direct" context =
    "a photorealistic close-up selfie of a young woman with long dark hair at "
    ++ context
    ++ ", direct eye contact with the camera, looking straight into the lens, eyes centered and clearly visible, phone held at arm's length, face fully visible, 8k, highly detailed"
  /\ GEN_PROMPT "mirror" context =
    "a photorealistic mirror selfie of a young woman with long dark hair, "
    ++ context
    ++ ", full body shot, detailed background, 8k, highly detailed".
Proof. split; reflexivity. Qed.

End PromptBuilder.

(** ** Base64 round trip *)

Section Base64Facts.

Import Base64.

(** Linear arithmetic with the quotients and remainders of the codec. *)
Local Ltac divlia := zify; Z.to_euclidean_division_equations; lia.

(** Induction on byte sequences three bytes at a time, as the encoder
    consumes them. *)
Lemma triples_ind (P : list byte -> Prop) :
  P [] ->
  (forall a, P [a]) ->
  (forall a b, P [a; b]) ->
  (forall a b c rest, P rest -> P (a :: b :: c :: rest)) ->
  forall bs, P bs.
Proof.
  intros H0 H1 H2 H3.
  fix IH 1. intros [|a [|b [|c rest]]];
    [apply H0 | apply H1 | apply H2 | apply H3; apply IH].
Qed.

Lemma digit_inverse (n : N) :
  n < 64 ->
  unbase64 (digit n) = Some n
  /\ unbase64_std (digit n) = Some n
  /\ Ascii.eqb (digit n) pad = false
  /\ Ascii.eqb (digit n) Text.newline = false.
Proof.
  intros Hn.
  assert (Hall : forallb
            (fun i =>
               let m := N.of_nat i in
               match unbase64 (digit m), unbase64_std (digit m) with
               | Some a, Some b =>
                   (a =? m) && (b =? m) && negb (Ascii.eqb (digit m) pad)
                   && negb (Ascii.eqb (digit m) Text.newline)
               | _, _ => false
               end) (seq 0 64) = true) by (vm_compute; reflexivity).
  rewrite forallb_forall in Hall.
  specialize (Hall (N.to_nat n)).
  rewrite N2Nat.id in Hall. cbv zeta in Hall.
  assert (Hin : In (N.to_nat n) (seq 0 64)) by (apply in_seq; lia).
  specialize (Hall Hin).
  destruct (unbase64 (digit n)) as [a|]; [|discriminate].
  destruct (unbase64_std (digit n)) as [b|]; [|discriminate].
  repeat (apply andb_prop in Hall as [Hall ?]).
  apply N.eqb_eq in Hall. apply N.eqb_eq in H1. subst.
  repeat split; auto; now apply negb_true_iff.
Qed.

Lemma byte_of_to_N (b : byte) : byte_of_N (Byte.to_N b) = b.
Proof.
  unfold byte_of_N.
  pose proof (Byte.to_N_bounded b) as Hb.
  rewrite N.mod_small by lia.
  now rewrite Byte.of_to_N.
Qed.

Lemma byte_of_N_eq (n : N) (b : byte) : n = Byte.to_N b -> byte_of_N n = b.
Proof. intros ->. apply byte_of_to_N. Qed.

Lemma sextets_digit (n : N) (r : string) :
  n < 64 -> sextets (String (digit n) r) = n :: sextets r.
Proof.
  intros Hn. destruct (digit_inverse n Hn) as (Hu & _ & Hp & _).
  simpl. now rewrite Hp, Hu.
Qed.

Lemma sextets_pad (r : string) : sextets (String pad r) = [].
Proof. reflexivity. Qed.

(** What Node's decoder reads back from an encoded payload is the payload. *)
Lemma decode_encode (bs : list byte) : decode (encode bs) = bs.
Proof.
  unfold decode. induction bs as [|a|a b|a b c rest IH] using triples_ind.
  - reflexivity.
  - pose proof (Byte.to_N_bounded a) as Ha.
    cbn [encode]. cbv zeta.
    rewrite !sextets_digit, sextets_pad by divlia.
    cbn [bytes_of_sextets]. f_equal. apply byte_of_N_eq. divlia.
  - pose proof (Byte.to_N_bounded a) as Ha.
    pose proof (Byte.to_N_bounded b) as Hb.
    cbn [encode]. cbv zeta.
    rewrite !sextets_digit, sextets_pad by divlia.
    cbn [bytes_of_sextets]. repeat f_equal; apply byte_of_N_eq; divlia.
  - pose proof (Byte.to_N_bounded a) as Ha.
    pose proof (Byte.to_N_bounded b) as Hb.
    pose proof (Byte.to_N_bounded c) as Hc.
    cbn [encode]. cbv zeta.
    rewrite !sextets_digit by divlia.
    cbn [bytes_of_sextets]. rewrite IH.
    repeat f_equal; apply byte_of_N_eq; divlia.
Qed.

Lemma remove_newlines_digit (n : N) (r : string) :
  n < 64 -> remove_newlines (String (digit n) r) = String (digit n) (remove_newlines r).
Proof.
  intros Hn. destruct (digit_inverse n Hn) as (_ & _ & _ & Hnl).
  simpl. now rewrite Hnl.
Qed.

Lemma remove_newlines_pad (r : string) :
  remove_newlines (String pad r) = String pad (remove_newlines r).
Proof. reflexivity. Qed.

(** An encoded payload followed by the newline of [echo] loses only that
    newline. *)
Lemma remove_newlines_encode (bs : list byte) :
  remove_newlines (encode bs ++ String Text.newline EmptyString) = encode bs.
Proof.
  induction bs as [|a|a b|a b c rest IH] using triples_ind.
  - reflexivity.
  - pose proof (Byte.to_N_bounded a) as Ha.
    cbn [encode append]. cbv zeta.
    rewrite !remove_newlines_digit, !remove_newlines_pad by divlia. reflexivity.
  - pose proof (Byte.to_N_bounded a) as Ha.
    pose proof (Byte.to_N_bounded b) as Hb.
    cbn [encode append]. cbv zeta.
    rewrite !remove_newlines_digit, !remove_newlines_pad by divlia. reflexivity.
  - pose proof (Byte.to_N_bounded a) as Ha.
    pose proof (Byte.to_N_bounded b) as Hb.
    pose proof (Byte.to_N_bounded c) as Hc.
    cbn [encode append]. cbv zeta.
    rewrite !remove_newlines_digit by divlia. now rewrite IH.
Qed.

Local Ltac digit_facts n :=
  let H := fresh "H" in
  let Hs := fresh "Hs" in
  let Hp := fresh "Hp" in
  assert (H : n < 64) by divlia;
  destruct (digit_inverse n H) as (_ & Hs & Hp & _);
  try rewrite Hs; try rewrite Hp; clear H.

Lemma decode_groups_encode (bs : list byte) : decode_groups (encode bs) = Some bs.
Proof.
  induction bs as [|a|a b|a b c rest IH] using triples_ind.
  - reflexivity.
  - pose proof (Byte.to_N_bounded a) as Ha.
    cbn [encode decode_groups]. cbv zeta.
    digit_facts (to_N a / 4). digit_facts (to_N a mod 4 * 16).
    change (Ascii.eqb pad pad) with true. cbv iota.
    replace (to_N a mod 4 * 16 mod 16 =? 0) with true by (symmetry; apply N.eqb_eq; divlia).
    do 2 f_equal. apply byte_of_N_eq. divlia.
  - pose proof (Byte.to_N_bounded a) as Ha.
    pose proof (Byte.to_N_bounded b) as Hb.
    cbn [encode decode_groups]. cbv zeta.
    digit_facts (to_N a / 4). digit_facts (to_N a mod 4 * 16 + to_N b / 16).
    digit_facts (to_N b mod 16 * 4).
    change (Ascii.eqb pad pad) with true. cbv iota.
    replace (to_N b mod 16 * 4 mod 4 =? 0) with true by (symmetry; apply N.eqb_eq; divlia).
    repeat f_equal; apply byte_of_N_eq; divlia.
  - pose proof (Byte.to_N_bounded a) as Ha.
    pose proof (Byte.to_N_bounded b) as Hb.
    pose proof (Byte.to_N_bounded c) as Hc.
    cbn [encode decode_groups]. cbv zeta.
    digit_facts (to_N a / 4). digit_facts (to_N a mod 4 * 16 + to_N b / 16).
    digit_facts (to_N b mod 16 * 4 + to_N c / 64). digit_facts (to_N c mod 64).
    rewrite IH.
    repeat f_equal; apply byte_of_N_eq; divlia.
Qed.

(** What [base64 --decode] reads back from an encoded payload printed by
    [echo] is the payload. *)
Lemma decode_strict_encode (bs : list byte) :
  decode_strict (encode bs ++ String Text.newline EmptyString) = Some bs.
Proof.
  unfold decode_strict. now rewrite remove_newlines_encode, decode_groups_encode.
Qed.

End Base64Facts.

(** ** Image Requester *)

Section ImageRequester.

Import Js OnoSelfieTs.

Variable w : world.

Local Ltac run :=
  unfold generateImage, sendViaOpenClaw, writeFileSync_base64, execAsync,
    do_fetch, do_json, bind, ret, throw, lift, emit in *.

(** Case analysis on the innermost scrutinee of a computation. *)
Local Ltac break_match H :=
  repeat match type of H with
         | context [match ?x with _ => _ end] =>
             lazymatch x with
             | context [match _ with _ => _ end] => fail
             | _ => destruct x eqn:?; cbn beta iota in H
             end
         end.

(** Without the credential [generateImage] throws at once. *)
Lemma generateImage_no_key (input : OnoImageInput) (t : list event) :
  truthy_string (env w "GEMINI_API_KEY") = false ->
  generateImage w input t = (Throw (Error missing_key_message), t).
Proof.
  intros Hk. unfold generateImage, truthy_string in *.
  destruct (env w "GEMINI_API_KEY") as [key|]; [|reflexivity].
  apply negb_false_iff in Hk. now rewrite Hk.
Qed.

(** With the credential the one effect of [generateImage] is its request,
    and what it returns is a data URL. *)
Lemma generateImage_with_key (input : OnoImageInput) (key : string)
      (r : result string) (t : list event) :
  env w "GEMINI_API_KEY" = Some key -> key <> EmptyString ->
  generateImage w input [] = (r, t) ->
  t = [Fetch (generate_request key input)]
  /\ forall imageUrl, r = Ok imageUrl -> Text.starts_with "data:" imageUrl = true.
Proof.
  intros Hk Hne H. run. rewrite Hk in H.
  apply String.eqb_neq in Hne. rewrite Hne in H. simpl app in H.
  break_match H; inversion H; subst; (split; [reflexivity|]);
    intros u Hu; try discriminate; inversion Hu; reflexivity.
Qed.

(** Every run of [generateImage] falls under one of the two lemmas above. *)
Lemma generateImage_trace (input : OnoImageInput) (r : result string) (t : list event) :
  generateImage w input [] = (r, t) ->
  (t = [] /\ r = Throw (Error missing_key_message))
  \/ (exists key, t = [Fetch (generate_request key input)]
      /\ forall imageUrl, r = Ok imageUrl -> Text.starts_with "data:" imageUrl = true).
Proof.
  intros H.
  destruct (truthy_string (env w "GEMINI_API_KEY")) eqn:Hk.
  - right. unfold truthy_string in Hk.
    destruct (env w "GEMINI_API_KEY") as [key|] eqn:He; [|discriminate].
    exists key. apply (generateImage_with_key input key r t He); [|exact H].
    intros ->. discriminate.
  - left. rewrite generateImage_no_key in H by exact Hk.
    inversion H; subst. now split.
Qed.

(** A response without predictions makes [generateImage] throw after its
    request. *)
Lemma generateImage_no_predictions (input : OnoImageInput) (key : string)
      (resp : response) (data : value) :
  env w "GEMINI_API_KEY" = Some key -> key <> EmptyString ->
  fetch w (generate_request key input) = Some resp ->
  json resp = Some data ->
  no_predictions data ->
  exists e,
    generateImage w input [] = (Throw e, [Fetch (generate_request key input)])
    /\ (ok resp = true -> e = Error "No predictions returned from Gemini API").
Proof.
  intros Hk Hne Hf Hj Hp. run. rewrite Hk.
  apply String.eqb_neq in Hne. rewrite Hne. simpl app. rewrite Hf.
  destruct (ok resp) eqn:Hok; simpl negb; cbv iota.
  - rewrite Hj. destruct Hp as [Hp|Hp]; rewrite Hp; simpl;
      (eexists; split; [reflexivity|intros _; reflexivity]).
  - eexists; split; [reflexivity|discriminate].
Qed.

End ImageRequester.

(** ** Materializer and Channel Dispatcher *)

Section Dispatcher.

Import Js OnoSelfieTs.

Variable w : world.

Local Ltac run :=
  unfold sendViaOpenClaw, writeFileSync_base64, execAsync,
    do_fetch, do_json, bind, ret, throw, lift, emit, dispatch_event in *.

(** The effects of [sendViaOpenClaw] on a data URL: the decoded bytes are
    written first, then the message is handed over, by either transport. *)
Lemma sendViaOpenClaw_data_url (message : OpenClawMessage) (m : string)
      (useCLI : bool) (t : list event) :
  media message = Some m ->
  Text.starts_with "data:" m = true ->
  snd (sendViaOpenClaw w message useCLI t) =
    (t ++ WriteFile (temp_file w m) (Base64.decode (replace_data_prefix m))
       :: (if write_ok w (temp_file w m)
           then [dispatch_event w message (Some (temp_file w m)) useCLI]
           else []))%list.
Proof.
  intros Hm Hd. run. rewrite Hm, Hd.
  destruct (write_ok w (temp_file w m)).
  - destruct useCLI.
    + destruct (exec_ok w _); simpl; now rewrite <- app_assoc.
    + destruct (fetch w _) as [resp|]; [destruct (ok resp)|]; simpl;
        now rewrite <- app_assoc.
  - reflexivity.
Qed.

(** Any other media reference is handed over as it is, and nothing is
    written. *)
Lemma sendViaOpenClaw_other (message : OpenClawMessage) (useCLI : bool)
      (t : list event) :
  (forall m, media message = Some m -> Text.starts_with "data:" m = false) ->
  snd (sendViaOpenClaw w message useCLI t) =
    (t ++ [dispatch_event w message (media message) useCLI])%list.
Proof.
  intros Hm. run.
  destruct (media message) as [m|] eqn:He.
  - rewrite (Hm m eq_refl). destruct useCLI.
    + destruct (exec_ok w _); reflexivity.
    + destruct (fetch w _) as [resp|]; [destruct (ok resp)|]; reflexivity.
  - destruct useCLI.
    + destruct (exec_ok w _); reflexivity.
    + destruct (fetch w _) as [resp|]; [destruct (ok resp)|]; reflexivity.
Qed.

End Dispatcher.

(** ** The claims about the pipeline *)

Section Pipeline.

Import Js OnoSelfieTs.

(** C4: on a response whose first prediction has no payload, or an empty
    one, [generateImage] does not fail: it returns a data URL built from
    the missing payload.  The shell script rejects the same responses. *)
Theorem C4_missing_payload_accepted :
  generateImage (Examples.ts_world (Some "k") Examples.missing_payload)
      Examples.sample_input []
    = (Ok "data:image/jpeg;base64,undefined",
       [Fetch (generate_request "k" Examples.sample_input)])
  /\ generateImage (Examples.ts_world (Some "k") Examples.empty_payload)
      Examples.sample_input []
    = (Ok "data:image/jpeg;base64,",
       [Fetch (generate_request "k" Examples.sample_input)])
  /\ fst (OnoSelfieSh.script (Examples.sh_world "k" Examples.missing_payload)
            ["a cozy cafe"; "#general"]) = 1%Z
  /\ fst (OnoSelfieSh.script (Examples.sh_world "k" Examples.empty_payload)
            ["a cozy cafe"; "#general"]) = 1%Z.
Proof. repeat split; vm_compute; reflexivity. Qed.

(** With the HTTP transport the temporary file is written all the same. *)
Lemma C5_written_for_http :
  existsb is_write
    (snd (sendViaOpenClaw (Examples.ts_world (Some "k") Examples.abc_payload)
            Examples.sample_message false []))
  = true.
Proof. vm_compute. reflexivity. Qed.

(** C5 (amended): when the media reference is a data URL the dispatcher
    first writes the decoded bytes to a temporary file, whichever transport
    is selected; the command line then carries the path of that file as its
    media argument, and the HTTP request carries the data URL itself. *)
Theorem C5_data_url_dispatch (w : world) (message : OpenClawMessage) (m : string)
        (useCLI : bool) :
  media message = Some m ->
  Text.starts_with "data:" m = true ->
  let tempFile := temp_file w m in
  snd (sendViaOpenClaw w message useCLI []) =
    WriteFile tempFile (Base64.decode (replace_data_prefix m))
      :: (if write_ok w tempFile
          then [if useCLI
                then Exec ("openclaw message send --action send --channel "
                           ++ dquote ++ channel message ++ dquote
                           ++ " --message " ++ dquote ++ OnoSelfieTs.message message ++ dquote
                           ++ " --media " ++ dquote ++ tempFile ++ dquote)
                else Fetch (gateway_request w message)]
          else [])
  /\ exists a c msg,
       req_body (gateway_request w message)
       = MessageBody {| action := a; channel := c; message := msg; media := Some m |}.
Proof.
  intros Hm Hd tempFile. split.
  - rewrite (sendViaOpenClaw_data_url w message m useCLI [] Hm Hd).
    simpl app. fold tempFile. unfold dispatch_event.
    destruct useCLI; reflexivity.
  - unfold gateway_request. simpl. rewrite Hm. eauto.
Qed.

Lemma C5_data_url_dispatch_witness :
  snd (sendViaOpenClaw (Examples.ts_world (Some "k") Examples.abc_payload)
         Examples.sample_message true [])
  = [WriteFile "/tmp/ono-selfie-1700000000000.jpeg" [x41; x42; x43];
     Exec ("openclaw message send --action send --channel " ++ dquote ++ "#general"
           ++ dquote ++ " --message " ++ dquote ++ "hello" ++ dquote ++ " --media "
           ++ dquote ++ "/tmp/ono-selfie-1700000000000.jpeg" ++ dquote)].
Proof.
  exact (proj1 (C5_data_url_dispatch
                  (Examples.ts_world (Some "k") Examples.abc_payload)
                  Examples.sample_message "data:image/jpeg;base64,QUJD" true
                  eq_refl eq_refl)).
Defined.

(** C6: without the credential the pipeline fails with the configuration
    error and exits with status 1 before any request is issued, in the
    TypeScript program and in the shell script alike. *)
Theorem C6_missing_key :
  (forall (w : world) (options : GenerateAndSendOptions) (args : list string),
      truthy_string (env w "GEMINI_API_KEY") = false ->
      generateAndSend w options [] = (Throw (Error missing_key_message), [])
      /\ main w args = (1%Z, []))
  /\ (forall (w : OnoSelfieSh.world) (args : list string),
         OnoSelfieSh.GEMINI_API_KEY w = EmptyString ->
         OnoSelfieSh.script w args = (1%Z, [])).
Proof.
  split.
  - intros w options args Hk.
    assert (Hg : forall o, generateAndSend w o [] = (Throw (Error missing_key_message), [])).
    { intros o. unfold generateAndSend, bind.
      now rewrite (generateImage_no_key w _ [] Hk). }
    split; [apply Hg|].
    unfold main. destruct args as [|p [|c rest]]; try reflexivity.
    now rewrite Hg.
  - intros w args Hk. unfold OnoSelfieSh.script. now rewrite Hk.
Qed.

Lemma C6_missing_key_witness :
  main (Examples.ts_world None Examples.abc_payload) ["a cozy cafe"; "#general"]
    = (1%Z, [])
  /\ OnoSelfieSh.script (Examples.sh_world EmptyString Examples.abc_payload)
       ["a cozy cafe"; "#general"] = (1%Z, []).
Proof.
  split.
  - apply (proj1 C6_missing_key (Examples.ts_world None Examples.abc_payload)
             (Examples.sample_options true)). reflexivity.
  - apply (proj2 C6_missing_key). reflexivity.
Defined.

(** C7: when the body of the response has no [predictions] field, or an
    empty array there, [generateImage] throws, the pipeline throws the same
    error, and its only effect is the request: no file is written. *)
Theorem C7_no_predictions (w : world) (options : GenerateAndSendOptions)
        (key : string) (resp : response) (data : value) :
  env w "GEMINI_API_KEY" = Some key -> key <> EmptyString ->
  fetch w (generate_request key (image_input options)) = Some resp ->
  json resp = Some data ->
  no_predictions data ->
  exists e t,
    generateImage w (image_input options) [] = (Throw e, t)
    /\ generateAndSend w options [] = (Throw e, t)
    /\ t = [Fetch (generate_request key (image_input options))]
    /\ existsb is_write t = false
    /\ (ok resp = true -> e = Error "No predictions returned from Gemini API").
Proof.
  intros Hk Hne Hf Hj Hp.
  destruct (generateImage_no_predictions w _ key resp data Hk Hne Hf Hj Hp)
    as (e & Hg & He).
  exists e, [Fetch (generate_request key (image_input options))].
  repeat split; auto.
  unfold generateAndSend, bind. now rewrite Hg.
Qed.

Lemma C7_no_predictions_witness :
  exists e t,
    generateImage (Examples.ts_world (Some "k") Examples.empty_predictions)
      (image_input (Examples.sample_options true)) [] = (Throw e, t)
    /\ generateAndSend (Examples.ts_world (Some "k") Examples.empty_predictions)
         (Examples.sample_options true) [] = (Throw e, t)
    /\ t = [Fetch (generate_request "k" (image_input (Examples.sample_options true)))]
    /\ existsb is_write t = false
    /\ (true = true -> e = Error "No predictions returned from Gemini API").
Proof.
  apply (C7_no_predictions (Examples.ts_world (Some "k") Examples.empty_predictions)
           (Examples.sample_options true) "k"
           (Examples.ok_response Examples.empty_predictions)
           Examples.empty_predictions).
  - reflexivity.
  - discriminate.
  - reflexivity.
  - reflexivity.
  - right. reflexivity.
Defined.

(** C8: in every run, an effect that dispatches to the messaging gateway
    is the last of exactly three: the request to the image service, after
    which [generateImage] returned the image, the write of the decoded bytes
    of that image to the temporary file, which succeeded, and the dispatch
    itself. *)
Theorem C8_dispatch_last (w : world) (options : GenerateAndSendOptions)
        (r : result Result) (t : list event) (e : event) :
  generateAndSend w options [] = (r, t) ->
  In e t ->
  is_dispatch e = true ->
  exists key imageUrl,
    generateImage w (image_input options) []
      = (Ok imageUrl, [Fetch (generate_request key (image_input options))])
    /\ write_ok w (temp_file w imageUrl) = true
    /\ t = [Fetch (generate_request key (image_input options));
            WriteFile (temp_file w imageUrl)
              (Base64.decode (replace_data_prefix imageUrl));
            e].
Proof.
  intros Hrun Hin Hd.
  assert (Hsnd : snd (generateAndSend w options []) = t) by now rewrite Hrun.
  unfold generateAndSend, bind in Hsnd.
  destruct (generateImage w (image_input options) []) as [r1 t1] eqn:Hg.
  destruct (generateImage_trace w _ r1 t1 Hg) as [[Ht1 Hr1]|(key & Ht1 & Hurl)].
  - subst t1 r1. simpl in Hsnd. subst t. destruct Hin.
  - destruct r1 as [imageUrl|e1].
    + specialize (Hurl imageUrl eq_refl).
      pose proof (sendViaOpenClaw_data_url w (image_message options imageUrl) imageUrl
                    (default true (opt_useOpenClawCLI options)) t1 eq_refl Hurl) as Hs.
      destruct (sendViaOpenClaw w (image_message options imageUrl)
                  (default true (opt_useOpenClawCLI options)) t1) as [[u|e2] t2];
        simpl in Hs, Hsnd; subst t2 t t1; simpl app in Hin;
        (destruct (write_ok w (temp_file w imageUrl)) eqn:Hw;
         [ destruct Hin as [<-|[<-|[<-|[]]]]; try discriminate;
           exists key, imageUrl; repeat split; auto
         | destruct Hin as [<-|[<-|[]]]; discriminate ]).
    + simpl in Hsnd. subst t t1. destruct Hin as [<-|[]]. discriminate.
Qed.

Lemma C8_dispatch_last_witness :
  exists key imageUrl,
    generateImage Examples.abc_world (image_input (Examples.sample_options false)) []
      = (Ok imageUrl,
         [Fetch (generate_request key (image_input (Examples.sample_options false)))])
    /\ write_ok Examples.abc_world (temp_file Examples.abc_world imageUrl) = true
    /\ snd (generateAndSend Examples.abc_world (Examples.sample_options false) [])
       = [Fetch (generate_request key (image_input (Examples.sample_options false)));
          WriteFile (temp_file Examples.abc_world imageUrl)
            (Base64.decode (replace_data_prefix imageUrl));
          Fetch (gateway_request Examples.abc_world
                   (image_message (Examples.sample_options false)
                      "data:image/jpeg;base64,QUJD"))].
Proof.
  apply (C8_dispatch_last Examples.abc_world (Examples.sample_options false)
           (fst (generateAndSend Examples.abc_world (Examples.sample_options false) []))
           (snd (generateAndSend Examples.abc_world (Examples.sample_options false) []))
           (Fetch (gateway_request Examples.abc_world
                     (image_message (Examples.sample_options false)
                        "data:image/jpeg;base64,QUJD")))).
  - apply surjective_pairing.
  - vm_compute. right. right. left. reflexivity.
  - reflexivity.
Defined.

(** The prefix of a data URL is removed whole when its MIME type is
    [image/] followed by a word. *)
Lemma skip_word_stops (subtype rest : string) :
  all_word subtype = true ->
  skip_word (subtype ++ String ";" rest) = String ";" rest.
Proof.
  induction subtype as [|c r IH]; intros H; [reflexivity|].
  simpl in H. apply andb_prop in H as [Hc Hr].
  simpl. rewrite Hc. auto.
Qed.

Lemma replace_data_prefix_word (subtype payload : string) :
  subtype <> EmptyString ->
  all_word subtype = true ->
  replace_data_prefix ("data:image/" ++ subtype ++ ";base64," ++ payload) = payload.
Proof.
  intros Hne Hw. destruct subtype as [|c r]; [contradiction|].
  simpl in Hw. apply andb_prop in Hw as [Hc Hr].
  unfold replace_data_prefix. simpl. rewrite Hc.
  change (String ";" (String "b" (String "a" (String "s" (String "e"
            (String "6" (String "4" (String "," payload))))))))
    with (String ";" ("base64," ++ payload)).
  rewrite (skip_word_stops r _ Hr). reflexivity.
Qed.

Lemma replace_data_prefix_default (output_format : option string) (payload : string) :
  replace_data_prefix ("data:" ++ mime_of_format output_format ++ ";base64," ++ payload)
  = payload.
Proof.
  unfold mime_of_format.
  destruct output_format as [f|]; [destruct (String.eqb f "png")|]; reflexivity.
Qed.

(** When the response names a MIME type that is not [image/] followed by a
    word, here [image/svg+xml], the bytes written for the encoding of [ABC]
    are not [ABC]: the prefix of the data URL is decoded with the payload. *)
Lemma C9_svg_not_round_trip :
  Base64.encode [x41; x42; x43] = "QUJD"
  /\ exists path data,
       nth_error
         (snd (generateAndSend (Examples.ts_world (Some "k") Examples.svg_payload)
                 (Examples.sample_options true) [])) 1
       = Some (WriteFile path data)
       /\ data <> [x41; x42; x43].
Proof.
  split; [reflexivity|].
  do 2 eexists. split; [vm_compute; reflexivity|discriminate].
Qed.

(** C9 (amended): the bytes the Materializer writes for an encoded byte
    sequence are that sequence: in [sendViaOpenClaw] for every data URL
    whose MIME type is [image/] followed by a word, under both transports,
    the two types [generateImage] asks for among them; and in the
    decode-and-write step of the shell script. *)
Theorem C9_round_trip (bs : list byte) :
  (forall (w : world) (subtype c msg : string) (useCLI : bool),
      subtype <> EmptyString -> all_word subtype = true ->
      let imageUrl := "data:image/" ++ subtype ++ ";base64," ++ Base64.encode bs in
      exists rest,
        snd (sendViaOpenClaw w
               {| action := "send"; channel := c; message := msg; media := Some imageUrl |}
               useCLI [])
        = WriteFile (temp_file w imageUrl) bs :: rest)
  /\ (forall (w : world) (output_format : option string) (c msg : string) (useCLI : bool),
      let imageUrl :=
        "data:" ++ mime_of_format output_format ++ ";base64," ++ Base64.encode bs in
      exists rest,
        snd (sendViaOpenClaw w
               {| action := "send"; channel := c; message := msg; media := Some imageUrl |}
               useCLI [])
        = WriteFile (temp_file w imageUrl) bs :: rest)
  /\ (forall w : OnoSelfieSh.world, OnoSelfieSh.decoded w (Base64.encode bs) = bs).
Proof.
  split; [|split].
  - intros w subtype c msg useCLI Hne Hword imageUrl.
    assert (Hd : Text.starts_with "data:" imageUrl = true) by reflexivity.
    set (message := {| action := "send"; channel := c; message := msg;
                       media := Some imageUrl |}).
    rewrite (sendViaOpenClaw_data_url w message imageUrl useCLI [] eq_refl Hd).
    unfold imageUrl at 2.
    rewrite (replace_data_prefix_word subtype _ Hne Hword), decode_encode.
    simpl app. eauto.
  - intros w f c msg useCLI imageUrl.
    assert (Hd : Text.starts_with "data:" imageUrl = true) by reflexivity.
    set (message := {| action := "send"; channel := c; message := msg;
                       media := Some imageUrl |}).
    rewrite (sendViaOpenClaw_data_url w message imageUrl useCLI [] eq_refl Hd).
    unfold imageUrl at 2.
    rewrite replace_data_prefix_default, decode_encode.
    simpl app. eauto.
  - intros w. unfold OnoSelfieSh.decoded.
    now rewrite decode_strict_encode.
Qed.

Lemma C9_round_trip_witness :
  exists rest,
    snd (sendViaOpenClaw Examples.abc_world
           {| action := "send"; channel := "#general"; message := "hello";
              media := Some ("data:image/" ++ "webp" ++ ";base64,"
                             ++ Base64.encode [x41; x42; x43]) |}
           true [])
    = WriteFile (temp_file Examples.abc_world
                   ("data:image/" ++ "webp" ++ ";base64," ++ Base64.encode [x41; x42; x43]))
        [x41; x42; x43] :: rest.
Proof.
  apply (proj1 (C9_round_trip [x41; x42; x43]) Examples.abc_world "webp" "#general" "hello"
           true).
  - discriminate.
  - reflexivity.
Defined.

(** C10: the MIME type asked for in the request, and taken for the data
    URL when the first prediction names none, is [image/png] when
    [output_format] is [png] and [image/jpeg] for every other value,
    [undefined] included. *)
Theorem C10_mime_type (w : world) (input : OnoImageInput) (key : string)
        (resp : response) (top fields : list (string * value)) (rest : list value) :
  env w "GEMINI_API_KEY" = Some key -> key <> EmptyString ->
  fetch w (generate_request key input) = Some resp ->
  ok resp = true ->
  json resp = Some (Obj top) ->
  find "predictions" top = Some (Arr (Obj fields :: rest)) ->
  find "mimeType" fields = None ->
  exists mime payload,
    (output_format input = Some "png" -> mime = "image/png")
    /\ (output_format input <> Some "png" -> mime = "image/jpeg")
    /\ req_body (generate_request key input)
       = GenerateBody {| instances_prompt := prompt input;
                         sampleCount := sampleCount (build_payload input);
                         aspectRatio := aspectRatio (build_payload input);
                         outputOptions_mimeType := mime |}
    /\ generateImage w input []
       = (Ok ("data:" ++ mime ++ ";base64," ++ payload),
          [Fetch (generate_request key input)]).
Proof.
  intros Hk Hne Hf Hok Hj Hp Hm.
  exists (mime_of_format (output_format input)).
  exists (to_string (match find "bytesBase64Encoded" fields with
                     | Some x => x
                     | None => Undefined
                     end)).
  split; [|split; [|split]].
  - intros ->. reflexivity.
  - intros Hn. unfold mime_of_format.
    destruct (output_format input) as [f|]; [|reflexivity].
    destruct (String.eqb f "png") eqn:He; [|reflexivity].
    apply String.eqb_eq in He. subst f. now contradiction Hn.
  - reflexivity.
  - unfold generateImage, do_fetch, do_json, bind, ret, throw, lift, emit.
    rewrite Hk. apply String.eqb_neq in Hne. rewrite Hne. simpl app.
    rewrite Hf, Hok. simpl negb. cbv iota. rewrite Hj.
    simpl. rewrite Hp. simpl. rewrite Hm.
    destruct (find "bytesBase64Encoded" fields); reflexivity.
Qed.

Lemma C10_mime_type_witness :
  exists mime payload,
    (output_format Examples.sample_input = Some "png" -> mime = "image/png")
    /\ (output_format Examples.sample_input <> Some "png" -> mime = "image/jpeg")
    /\ req_body (generate_request "k" Examples.sample_input)
       = GenerateBody {| instances_prompt := prompt Examples.sample_input;
                         sampleCount := sampleCount (build_payload Examples.sample_input);
                         aspectRatio := aspectRatio (build_payload Examples.sample_input);
                         outputOptions_mimeType := mime |}
    /\ generateImage Examples.abc_world Examples.sample_input []
       = (Ok ("data:" ++ mime ++ ";base64," ++ payload),
          [Fetch (generate_request "k" Examples.sample_input)]).
Proof.
  apply (C10_mime_type Examples.abc_world Examples.sample_input "k"
           (Examples.ok_response Examples.abc_payload)
           [("predictions", Arr [Obj [("bytesBase64Encoded", Str "QUJD")]])]
           [("bytesBase64Encoded", Str "QUJD")] []).
  - reflexivity.
  - discriminate.
  - reflexivity.
  - reflexivity.
  - reflexivity.
  - reflexivity.
  - reflexivity.
Defined.

End Pipeline.

(** * Further properties of the TypeScript program *)

Section TsRequester.

Import Js OnoSelfieTs.

Local Ltac start Hk Hne :=
  unfold generateImage, do_fetch, do_json, bind, ret, throw, lift, emit;
  rewrite Hk; apply String.eqb_neq in Hne; rewrite Hne; simpl app.

(** X1: a response with a non-success status makes the pipeline throw an
    error that carries the status code, the status text and the body; the
    body is not parsed, and nothing is written or dispatched. *)
Theorem X1_http_failure (w : world) (options : GenerateAndSendOptions) (key : string)
        (resp : response) :
  env w "GEMINI_API_KEY" = Some key -> key <> EmptyString ->
  fetch w (generate_request key (image_input options)) = Some resp ->
  ok resp = false ->
  generateAndSend w options [] =
    (Throw (Error ("Image generation failed: " ++ decimalZ (status resp) ++ " "
                   ++ statusText resp ++ " - " ++ text resp)),
     [Fetch (generate_request key (image_input options))]).
Proof.
  intros Hk Hne Hf Hok. unfold generateAndSend. unfold bind at 1.
  start Hk Hne. now rewrite Hf, Hok.
Qed.

Lemma X1_http_failure_witness :
  generateAndSend
    (Examples.world_of (Some "k") (Some (Examples.error_response 500 "Internal" "quota"))
       None true true)
    (Examples.sample_options true) []
  = (Throw (Error "Image generation failed: 500 Internal - quota"),
     [Fetch (generate_request "k" (image_input (Examples.sample_options true)))]).
Proof.
  apply (X1_http_failure
           (Examples.world_of (Some "k")
              (Some (Examples.error_response 500 "Internal" "quota")) None true true)
           (Examples.sample_options true) "k"
           (Examples.error_response 500 "Internal" "quota")).
  - reflexivity.
  - discriminate.
  - reflexivity.
  - reflexivity.
Defined.

(** X2: a connection that fails, or a success response whose body is not
    JSON, makes the pipeline throw after the one request; nothing is
    written or dispatched. *)
Theorem X2_no_body (w : world) (options : GenerateAndSendOptions) (key : string) :
  env w "GEMINI_API_KEY" = Some key -> key <> EmptyString ->
  (fetch w (generate_request key (image_input options)) = None
   \/ exists resp, fetch w (generate_request key (image_input options)) = Some resp
                   /\ ok resp = true /\ json resp = None) ->
  exists e,
    generateAndSend w options [] =
      (Throw e, [Fetch (generate_request key (image_input options))]).
Proof.
  intros Hk Hne H. unfold generateAndSend. unfold bind at 1.
  start Hk Hne. destruct H as [Hf|(resp & Hf & Hok & Hj)]; rewrite Hf.
  - eexists. reflexivity.
  - rewrite Hok. simpl. rewrite Hj. eexists. reflexivity.
Qed.

Lemma X2_no_body_witness :
  exists e,
    generateAndSend (Examples.world_of (Some "k") None None true true)
      (Examples.sample_options true) []
    = (Throw e, [Fetch (generate_request "k" (image_input (Examples.sample_options true)))]).
Proof.
  apply (X2_no_body (Examples.world_of (Some "k") None None true true)
           (Examples.sample_options true) "k").
  - reflexivity.
  - discriminate.
  - left. reflexivity.
Defined.

(** X3: whatever the input, the request asks for the number of images
    given, and for one when it is [undefined] or 0; for the aspect ratio
    given, and for [1:1] when it is [undefined] or empty; and for one of the
    two MIME types.  So it never asks for zero images or an empty aspect
    ratio; the prompt goes unchanged, and the pipeline always asks for
    exactly one image. *)
Theorem X3_payload_invariants (input : OnoImageInput) (options : GenerateAndSendOptions) :
  (num_images input = None \/ num_images input = Some 0%Z ->
   sampleCount (build_payload input) = 1%Z)
  /\ (forall n, num_images input = Some n -> n <> 0%Z ->
      sampleCount (build_payload input) = n)
  /\ (aspect_ratio input = None \/ aspect_ratio input = Some EmptyString ->
      aspectRatio (build_payload input) = "1:1")
  /\ (forall a, aspect_ratio input = Some a -> a <> EmptyString ->
      aspectRatio (build_payload input) = a)
  /\ sampleCount (build_payload input) <> 0%Z
  /\ aspectRatio (build_payload input) <> EmptyString
  /\ (outputOptions_mimeType (build_payload input) = "image/png"
      \/ outputOptions_mimeType (build_payload input) = "image/jpeg")
  /\ instances_prompt (build_payload input) = prompt input
  /\ sampleCount (build_payload (image_input options)) = 1%Z
  /\ instances_prompt (build_payload (image_input options)) = opt_prompt options.
Proof.
  unfold build_payload, mime_of_format. simpl.
  split; [|split; [|split; [|split; [|split; [|split; [|split; [|split; [|split]]]]]]]].
  - intros [->| ->]; reflexivity.
  - intros n -> Hn. apply Z.eqb_neq in Hn. now rewrite Hn.
  - intros [->| ->]; reflexivity.
  - intros a -> Ha. apply String.eqb_neq in Ha. now rewrite Ha.
  - destruct (num_images input) as [n|]; [|discriminate].
    destruct (n =? 0)%Z eqn:Hn; [discriminate|]. now apply Z.eqb_neq.
  - destruct (aspect_ratio input) as [a|]; [|discriminate].
    destruct (String.eqb a EmptyString) eqn:Ha; [discriminate|]. now apply String.eqb_neq.
  - destruct (output_format input) as [f|]; [destruct (String.eqb f "png")|]; auto.
  - reflexivity.
  - reflexivity.
  - reflexivity.
Qed.

Lemma X3_payload_invariants_witness :
  sampleCount (build_payload {| prompt := "a cozy cafe"; num_images := Some 0%Z;
                                aspect_ratio := Some EmptyString;
                                output_format := None |}) = 1%Z
  /\ aspectRatio (build_payload {| prompt := "a cozy cafe"; num_images := Some 0%Z;
                                   aspect_ratio := Some EmptyString;
                                   output_format := None |}) = "1:1".
Proof.
  pose proof (X3_payload_invariants
                {| prompt := "a cozy cafe"; num_images := Some 0%Z;
                   aspect_ratio := Some EmptyString; output_format := None |}
                (Examples.sample_options true)) as (H1 & _ & H3 & _).
  split; [apply H1|apply H3]; right; reflexivity.
Defined.

(** X4: when the first prediction names a MIME type, the data URL carries
    that type and the payload as they came, whatever format was asked for. *)
Theorem X4_response_mime_type (w : world) (input : OnoImageInput) (key : string)
        (resp : response) (top fields : list (string * value)) (rest : list value)
        (m b : string) :
  env w "GEMINI_API_KEY" = Some key -> key <> EmptyString ->
  fetch w (generate_request key input) = Some resp ->
  ok resp = true ->
  json resp = Some (Obj top) ->
  find "predictions" top = Some (Arr (Obj fields :: rest)) ->
  find "mimeType" fields = Some (Str m) -> m <> EmptyString ->
  find "bytesBase64Encoded" fields = Some (Str b) ->
  generateImage w input [] =
    (Ok ("data:" ++ m ++ ";base64," ++ b), [Fetch (generate_request key input)]).
Proof.
  intros Hk Hne Hf Hok Hj Hp Hm Hmne Hb.
  start Hk Hne. rewrite Hf, Hok. simpl negb. cbv iota. rewrite Hj.
  simpl. rewrite Hp. simpl. rewrite Hb, Hm. simpl.
  apply String.eqb_neq in Hmne. now rewrite Hmne.
Qed.

Lemma X4_response_mime_type_witness :
  generateImage (Examples.ts_world (Some "k") Examples.webp_payload)
    Examples.sample_input []
  = (Ok "data:image/webp;base64,QUJD",
     [Fetch (generate_request "k" Examples.sample_input)]).
Proof.
  apply (X4_response_mime_type (Examples.ts_world (Some "k") Examples.webp_payload)
           Examples.sample_input "k" (Examples.ok_response Examples.webp_payload)
           [("predictions",
             Arr [Obj [("bytesBase64Encoded", Str "QUJD"); ("mimeType", Str "image/webp")]])]
           [("bytesBase64Encoded", Str "QUJD"); ("mimeType", Str "image/webp")] []
           "image/webp" "QUJD").
  - reflexivity.
  - discriminate.
  - reflexivity.
  - reflexivity.
  - reflexivity.
  - reflexivity.
  - reflexivity.
  - discriminate.
  - reflexivity.
Defined.

(** X5: a body that is [null], or whose first prediction is [null], makes
    [generateImage] throw a [TypeError] from the property access, not the
    error about missing predictions. *)
Theorem X5_null_type_error (w : world) (input : OnoImageInput) (key : string)
        (resp : response) (data : value) :
  env w "GEMINI_API_KEY" = Some key -> key <> EmptyString ->
  fetch w (generate_request key input) = Some resp ->
  ok resp = true ->
  json resp = Some data ->
  (data = Null
   \/ exists top rest, data = Obj top
                       /\ find "predictions" top = Some (Arr (Null :: rest))) ->
  exists msg,
    generateImage w input [] =
      (Throw (TypeError msg), [Fetch (generate_request key input)]).
Proof.
  intros Hk Hne Hf Hok Hj Hd.
  start Hk Hne. rewrite Hf, Hok. simpl negb. cbv iota. rewrite Hj.
  destruct Hd as [->|(top & rest & -> & Hp)].
  - eexists. reflexivity.
  - simpl. rewrite Hp. eexists. reflexivity.
Qed.

Lemma X5_null_type_error_witness :
  exists msg,
    generateImage (Examples.ts_world (Some "k") Examples.null_prediction)
      Examples.sample_input []
    = (Throw (TypeError msg), [Fetch (generate_request "k" Examples.sample_input)]).
Proof.
  apply (X5_null_type_error (Examples.ts_world (Some "k") Examples.null_prediction)
           Examples.sample_input "k" (Examples.ok_response Examples.null_prediction)
           Examples.null_prediction).
  - reflexivity.
  - discriminate.
  - reflexivity.
  - reflexivity.
  - reflexivity.
  - right. exists [("predictions", Arr [Null])], []. split; reflexivity.
Defined.

End TsRequester.

Section TsMaterializer.

Import Js OnoSelfieTs.

Lemma length_app (a b : string) :
  String.length (a ++ b) = (String.length a + String.length b)%nat.
Proof. induction a as [|c a IH]; simpl; [reflexivity|now rewrite IH]. Qed.

Lemma substring_prefix (a b : string) :
  String.substring 0 (String.length a) (a ++ b) = a.
Proof.
  induction a as [|c a IH]; simpl.
  - destruct b; reflexivity.
  - now rewrite IH.
Qed.

Lemma substring_skip (a b : string) (n : nat) :
  String.substring (String.length a) n (a ++ b) = String.substring 0 n b.
Proof. induction a as [|c a IH]; simpl; [reflexivity|exact IH]. Qed.

(** The first occurrence of a character that a prefix does not contain is
    right after the prefix. *)
Lemma indexOf_after (c : ascii) (a b : string) :
  free_of c a = true ->
  Text.indexOf c (a ++ String c b) = Z.of_nat (String.length a).
Proof.
  induction a as [|d a IH]; intros H.
  - simpl. now rewrite Ascii.eqb_refl.
  - simpl in H. apply andb_prop in H as [Hd Ha].
    apply negb_true_iff in Hd.
    cbn [append Text.indexOf String.length]. rewrite Hd, (IH Ha).
    destruct (Z.of_nat (String.length a) <? 0)%Z eqn:Hlt; [apply Z.ltb_lt in Hlt|]; lia.
Qed.

(** [substring] between two positions in order and in range. *)
Lemma js_substring_in_range (s : string) (i j : nat) :
  (i <= j)%nat -> (j <= String.length s)%nat ->
  Text.js_substring s (Z.of_nat i) (Z.of_nat j) = String.substring i (j - i) s.
Proof.
  intros Hij Hj. unfold Text.js_substring.
  replace (Z.max 0 (Z.min (Z.of_nat i) (Z.of_nat (String.length s)))) with (Z.of_nat i) by lia.
  replace (Z.max 0 (Z.min (Z.of_nat j) (Z.of_nat (String.length s)))) with (Z.of_nat j) by lia.
  replace (Z.min (Z.of_nat i) (Z.of_nat j)) with (Z.of_nat i) by lia.
  replace (Z.max (Z.of_nat i) (Z.of_nat j)) with (Z.of_nat j) by lia.
  rewrite Nat2Z.id. f_equal. lia.
Qed.

(** The name of the temporary file for a data URL of type
    [image/<subtype>]. *)
Lemma temp_file_of_subtype (w : world) (subtype payload : string) :
  free_of ";" subtype = true ->
  temp_file w ("data:image/" ++ subtype ++ ";base64," ++ payload)
  = "/tmp/ono-selfie-" ++ Text.decimal (now w) ++ "." ++ subtype.
Proof.
  intros Hs. unfold temp_file.
  set (m := "data:image/" ++ subtype ++ ";base64," ++ payload).
  assert (Hslash : Text.indexOf "/" m = 10%Z).
  { change m with ("data:image" ++ String "/" (subtype ++ ";base64," ++ payload)).
    now rewrite indexOf_after. }
  assert (Hsemi : Text.indexOf ";" m = Z.of_nat (11 + String.length subtype)).
  { change m with (("data:image/" ++ subtype) ++ String ";" ("base64," ++ payload)).
    rewrite indexOf_after; [now rewrite length_app|exact Hs]. }
  rewrite Hslash, Hsemi.
  change (10 + 1)%Z with (Z.of_nat 11).
  rewrite js_substring_in_range.
  - replace (11 + String.length subtype - 11)%nat with (String.length subtype) by lia.
    change m with ("data:image/" ++ (subtype ++ ";base64," ++ payload)).
    rewrite (substring_skip "data:image/"), substring_prefix. reflexivity.
  - lia.
  - unfold m. rewrite !length_app. simpl. lia.
Qed.

(** X6: for a data URL of type [image/<subtype>] the temporary file is
    [/tmp/ono-selfie-<clock>.<subtype>]: the extension is the text between
    the first [/] and the first [;]. *)
Theorem X6_temp_file_name (w : world) (subtype payload : string) :
  free_of ";" subtype = true ->
  temp_file w ("data:image/" ++ subtype ++ ";base64," ++ payload)
  = "/tmp/ono-selfie-" ++ Text.decimal (now w) ++ "." ++ subtype.
Proof. apply temp_file_of_subtype. Qed.

Lemma X6_temp_file_name_witness :
  temp_file Examples.abc_world ("data:image/" ++ "png" ++ ";base64," ++ "QUJD")
  = "/tmp/ono-selfie-" ++ Text.decimal (now Examples.abc_world) ++ "." ++ "png".
Proof.
  apply (X6_temp_file_name Examples.abc_world "png" "QUJD"). reflexivity.
Defined.

End TsMaterializer.

Section TsDispatcher.

Import Js OnoSelfieTs.

Local Ltac run :=
  unfold sendViaOpenClaw, writeFileSync_base64, execAsync,
    do_fetch, do_json, bind, ret, throw, lift, emit, dispatch_event, dispatch_result in *.

(** [sendViaOpenClaw] on a data URL, outcome and effects. *)
Lemma sendViaOpenClaw_data_url_full (w : world) (message : OpenClawMessage) (m : string)
      (useCLI : bool) (t : list event) :
  media message = Some m ->
  Text.starts_with "data:" m = true ->
  sendViaOpenClaw w message useCLI t =
    if write_ok w (temp_file w m)
    then (dispatch_result w message (Some (temp_file w m)) useCLI,
          (t ++ [WriteFile (temp_file w m) (Base64.decode (replace_data_prefix m));
                 dispatch_event w message (Some (temp_file w m)) useCLI])%list)
    else (Throw (Rejected "write failed"),
          (t ++ [WriteFile (temp_file w m) (Base64.decode (replace_data_prefix m))])%list).
Proof.
  intros Hm Hd. run. rewrite Hm, Hd.
  destruct (write_ok w (temp_file w m)); [|reflexivity].
  destruct useCLI.
  - destruct (exec_ok w _); simpl; now rewrite <- app_assoc.
  - destruct (fetch w _) as [resp|]; [destruct (ok resp)|]; simpl;
      now rewrite <- app_assoc.
Qed.

(** [sendViaOpenClaw] on any other media reference, outcome and effects. *)
Lemma sendViaOpenClaw_other_full (w : world) (message : OpenClawMessage)
      (useCLI : bool) (t : list event) :
  (forall m, media message = Some m -> Text.starts_with "data:" m = false) ->
  sendViaOpenClaw w message useCLI t =
    (dispatch_result w message (media message) useCLI,
     (t ++ [dispatch_event w message (media message) useCLI])%list).
Proof.
  intros Hm. run.
  destruct (media message) as [m|] eqn:He.
  - rewrite (Hm m eq_refl). destruct useCLI.
    + destruct (exec_ok w _); reflexivity.
    + destruct (fetch w _) as [resp|]; [destruct (ok resp)|]; reflexivity.
  - destruct useCLI.
    + destruct (exec_ok w _); reflexivity.
    + destruct (fetch w _) as [resp|]; [destruct (ok resp)|]; reflexivity.
Qed.

(** X7: a media reference that is not a data URL (a remote URL, a path, or
    none at all) is handed over as it is and nothing is written; on the
    command line a missing reference reads [undefined]. *)
Theorem X7_other_media_unchanged (w : world) (message : OpenClawMessage) (useCLI : bool) :
  (forall m, media message = Some m -> Text.starts_with "data:" m = false) ->
  snd (sendViaOpenClaw w message useCLI []) =
    [if useCLI
     then Exec ("openclaw message send --action send --channel "
                ++ dquote ++ channel message ++ dquote
                ++ " --message " ++ dquote ++ OnoSelfieTs.message message ++ dquote
                ++ " --media " ++ dquote
                ++ match media message with Some m => m | None => "undefined" end
                ++ dquote)
     else Fetch (gateway_request w message)]
  /\ existsb is_write (snd (sendViaOpenClaw w message useCLI [])) = false.
Proof.
  intros Hm. rewrite (sendViaOpenClaw_other_full w message useCLI [] Hm).
  unfold dispatch_event. destruct useCLI; split; reflexivity.
Qed.

Lemma X7_other_media_unchanged_witness :
  snd (sendViaOpenClaw Examples.abc_world
         {| action := "send"; channel := "#general"; message := "hello"; media := None |}
         true [])
  = [Exec ("openclaw message send --action send --channel " ++ dquote ++ "#general"
           ++ dquote ++ " --message " ++ dquote ++ "hello" ++ dquote ++ " --media "
           ++ dquote ++ "undefined" ++ dquote)].
Proof.
  refine (proj1 (X7_other_media_unchanged Examples.abc_world
                   {| action := "send"; channel := "#general"; message := "hello";
                      media := None |} true _)).
  intros m H. discriminate H.
Defined.

(** X8: when the gateway answers the HTTP transport with a non-success
    status, [sendViaOpenClaw] throws an error carrying the body of the
    answer; the temporary file has been written by then. *)
Theorem X8_gateway_failure (w : world) (message : OpenClawMessage) (m : string)
        (resp : response) :
  media message = Some m ->
  Text.starts_with "data:" m = true ->
  write_ok w (temp_file w m) = true ->
  fetch w (gateway_request w message) = Some resp ->
  ok resp = false ->
  sendViaOpenClaw w message false [] =
    (Throw (Error ("OpenClaw send failed: " ++ text resp)),
     [WriteFile (temp_file w m) (Base64.decode (replace_data_prefix m));
      Fetch (gateway_request w message)]).
Proof.
  intros Hm Hd Hw Hf Hok.
  rewrite (sendViaOpenClaw_data_url_full w message m false [] Hm Hd), Hw.
  unfold dispatch_result, dispatch_event. now rewrite Hf, Hok.
Qed.

Lemma X8_gateway_failure_witness :
  sendViaOpenClaw
    (Examples.world_of (Some "k") None
       (Some (Examples.error_response 503 "Unavailable" "gateway down")) true true)
    Examples.sample_message false []
  = (Throw (Error "OpenClaw send failed: gateway down"),
     [WriteFile "/tmp/ono-selfie-1700000000000.jpeg" [x41; x42; x43];
      Fetch (gateway_request
               (Examples.world_of (Some "k") None
                  (Some (Examples.error_response 503 "Unavailable" "gateway down"))
                  true true)
               Examples.sample_message)]).
Proof.
  apply (X8_gateway_failure
           (Examples.world_of (Some "k") None
              (Some (Examples.error_response 503 "Unavailable" "gateway down")) true true)
           Examples.sample_message "data:image/jpeg;base64,QUJD"
           (Examples.error_response 503 "Unavailable" "gateway down")).
  - reflexivity.
  - reflexivity.
  - reflexivity.
  - reflexivity.
  - reflexivity.
Defined.

End TsDispatcher.

Section TsPipeline.

Import Js OnoSelfieTs.

(** The pipeline once the image has been generated. *)
Lemma generateAndSend_after_image (w : world) (options : GenerateAndSendOptions)
      (imageUrl : string) (t : list event) :
  generateImage w (image_input options) [] = (Ok imageUrl, t) ->
  Text.starts_with "data:" imageUrl = true ->
  generateAndSend w options [] =
    let tempFile := temp_file w imageUrl in
    let message := image_message options imageUrl in
    let useCLI := default true (opt_useOpenClawCLI options) in
    let written := WriteFile tempFile (Base64.decode (replace_data_prefix imageUrl)) in
    if write_ok w tempFile
    then (match dispatch_result w message (Some tempFile) useCLI with
          | Ok _ => Ok {| success := true;
                          imageUrl := Text.js_substring imageUrl 0 50 ++ "...";
                          res_channel := opt_channel options;
                          res_prompt := opt_prompt options |}
          | Throw e => Throw e
          end,
          (t ++ [written; dispatch_event w message (Some tempFile) useCLI])%list)
    else (Throw (Rejected "write failed"), (t ++ [written])%list).
Proof.
  intros Hg Hd. unfold generateAndSend. unfold bind at 1. rewrite Hg.
  unfold bind.
  rewrite (sendViaOpenClaw_data_url_full w (image_message options imageUrl) imageUrl
             _ t eq_refl Hd).
  cbv zeta. destruct (write_ok w (temp_file w imageUrl)); [|reflexivity].
  destruct (dispatch_result w _ _ _); reflexivity.
Qed.

(** The pipeline when the image could not be generated. *)
Lemma generateAndSend_no_image (w : world) (options : GenerateAndSendOptions)
      (e : exn) (t : list event) :
  generateImage w (image_input options) [] = (Throw e, t) ->
  generateAndSend w options [] = (Throw e, t).
Proof.
  intros Hg. unfold generateAndSend. unfold bind at 1. now rewrite Hg.
Qed.

(** A successful run, read backwards. *)
Lemma generateAndSend_ok (w : world) (options : GenerateAndSendOptions)
      (res : Result) (t : list event) :
  generateAndSend w options [] = (Ok res, t) ->
  exists key imageUrl,
    generateImage w (image_input options) []
      = (Ok imageUrl, [Fetch (generate_request key (image_input options))])
    /\ write_ok w (temp_file w imageUrl) = true
    /\ dispatch_result w (image_message options imageUrl) (Some (temp_file w imageUrl))
         (default true (opt_useOpenClawCLI options)) = Ok tt
    /\ res = {| success := true;
                imageUrl := Text.js_substring imageUrl 0 50 ++ "...";
                res_channel := opt_channel options;
                res_prompt := opt_prompt options |}
    /\ t = [Fetch (generate_request key (image_input options));
            WriteFile (temp_file w imageUrl) (Base64.decode (replace_data_prefix imageUrl));
            dispatch_event w (image_message options imageUrl)
              (Some (temp_file w imageUrl)) (default true (opt_useOpenClawCLI options))].
Proof.
  intros H.
  destruct (generateImage w (image_input options) []) as [[imageUrl|e] t1] eqn:Hg.
  - destruct (generateImage_trace w _ _ _ Hg) as [[_ Habs]|(key & -> & Hurl)];
      [discriminate|].
    specialize (Hurl imageUrl eq_refl).
    rewrite (generateAndSend_after_image w options imageUrl _ Hg Hurl) in H.
    cbv zeta in H.
    destruct (write_ok w (temp_file w imageUrl)) eqn:Hw; [|discriminate].
    destruct (dispatch_result w _ _ _) as [[]|e] eqn:Hr; [|discriminate].
    inversion H; subst. exists key, imageUrl. repeat split; auto.
  - rewrite (generateAndSend_no_image w options e t1 Hg) in H. discriminate.
Qed.

(** The four shapes of a run. *)
Lemma generateAndSend_shape (w : world) (options : GenerateAndSendOptions) :
  let t := snd (generateAndSend w options []) in
  t = []
  \/ exists key,
       t = [Fetch (generate_request key (image_input options))]
       \/ exists imageUrl,
            let written :=
              WriteFile (temp_file w imageUrl)
                (Base64.decode (replace_data_prefix imageUrl)) in
            t = [Fetch (generate_request key (image_input options)); written]
            \/ t = [Fetch (generate_request key (image_input options)); written;
                    dispatch_event w (image_message options imageUrl)
                      (Some (temp_file w imageUrl))
                      (default true (opt_useOpenClawCLI options))].
Proof.
  intros t. subst t.
  destruct (generateImage w (image_input options) []) as [[imageUrl|e] t1] eqn:Hg.
  - destruct (generateImage_trace w _ _ _ Hg) as [[_ Habs]|(key & -> & Hurl)];
      [discriminate|].
    specialize (Hurl imageUrl eq_refl).
    rewrite (generateAndSend_after_image w options imageUrl _ Hg Hurl).
    cbv zeta. right. exists key. right. exists imageUrl.
    destruct (write_ok w (temp_file w imageUrl)); [right|left]; reflexivity.
  - rewrite (generateAndSend_no_image w options e t1 Hg). simpl.
    destruct (generateImage_trace w _ _ _ Hg) as [[-> _]|(key & -> & _)].
    + now left.
    + right. exists key. now left.
Qed.

(** X9: the effects of a run are, in this order, at most one request to
    the image service, at most one write of the temporary file and at most
    one dispatch; a later one never happens without the earlier ones. *)
Theorem X9_trace_shape (w : world) (options : GenerateAndSendOptions) :
  let t := snd (generateAndSend w options []) in
  t = []
  \/ exists key,
       t = [Fetch (generate_request key (image_input options))]
       \/ exists imageUrl,
            let written :=
              WriteFile (temp_file w imageUrl)
                (Base64.decode (replace_data_prefix imageUrl)) in
            t = [Fetch (generate_request key (image_input options)); written]
            \/ t = [Fetch (generate_request key (image_input options)); written;
                    dispatch_event w (image_message options imageUrl)
                      (Some (temp_file w imageUrl))
                      (default true (opt_useOpenClawCLI options))].
Proof. apply generateAndSend_shape. Qed.



(** X10: the process exits with status 0 only when it was given a prompt
    and a channel, the image was generated, its file was written and the
    dispatch succeeded; these are then its three effects. *)
Theorem X10_exit_zero (w : world) (args : list string) (t : list event) :
  main w args = (0%Z, t) ->
  exists prompt channel rest options key imageUrl,
    args = prompt :: channel :: rest
    /\ opt_prompt options = prompt /\ opt_channel options = channel
    /\ opt_caption options = nth_error rest 0
    /\ generateImage w (image_input options) []
       = (Ok imageUrl, [Fetch (generate_request key (image_input options))])
    /\ write_ok w (temp_file w imageUrl) = true
    /\ exec_ok w (cli_command (image_message options imageUrl)
                    (Some (temp_file w imageUrl))) = true
    /\ t = [Fetch (generate_request key (image_input options));
            WriteFile (temp_file w imageUrl) (Base64.decode (replace_data_prefix imageUrl));
            Exec (cli_command (image_message options imageUrl)
                    (Some (temp_file w imageUrl)))].
Proof.
  unfold main. intros H.
  destruct args as [|prompt [|channel rest]]; try discriminate.
  set (options := {| opt_prompt := prompt; opt_channel := channel;
                     opt_caption := nth_error rest 0;
                     opt_aspectRatio := nth_error rest 1;
                     opt_outputFormat := nth_error rest 2;
                     opt_useOpenClawCLI := None |}) in *.
  destruct (generateAndSend w options []) as [[res|e] t'] eqn:Hrun; [|discriminate].
  inversion H; subst t'.
  destruct (generateAndSend_ok w options res t Hrun)
    as (key & imageUrl & Hg & Hw & Hr & _ & Ht).
  exists prompt, channel, rest, options, key, imageUrl.
  unfold dispatch_result, dispatch_event in *. simpl default in *.
  destruct (exec_ok w _) eqn:He; [|discriminate].
  repeat split; auto.
Qed.

Lemma X10_exit_zero_witness :
  exists prompt channel rest options key imageUrl,
    ["a cozy cafe"; "#general"] = prompt :: channel :: rest
    /\ opt_prompt options = prompt /\ opt_channel options = channel
    /\ opt_caption options = nth_error rest 0
    /\ generateImage Examples.abc_world (image_input options) []
       = (Ok imageUrl, [Fetch (generate_request key (image_input options))])
    /\ write_ok Examples.abc_world (temp_file Examples.abc_world imageUrl) = true
    /\ exec_ok Examples.abc_world
         (cli_command (image_message options imageUrl)
            (Some (temp_file Examples.abc_world imageUrl))) = true
    /\ snd (main Examples.abc_world ["a cozy cafe"; "#general"])
       = [Fetch (generate_request key (image_input options));
          WriteFile (temp_file Examples.abc_world imageUrl)
            (Base64.decode (replace_data_prefix imageUrl));
          Exec (cli_command (image_message options imageUrl)
                  (Some (temp_file Examples.abc_world imageUrl)))].
Proof.
  apply (X10_exit_zero Examples.abc_world ["a cozy cafe"; "#general"]
           (snd (main Examples.abc_world ["a cozy cafe"; "#general"]))).
  vm_compute. reflexivity.
Defined.

Lemma substring_length (n m : nat) (s : string) :
  (String.length (String.substring n m s) <= m)%nat.
Proof.
  revert n m. induction s as [|c s IH]; intros [|n] [|m]; simpl; try lia.
  - specialize (IH 0%nat m). lia.
  - apply (IH n 0%nat).
  - apply (IH n (S m)).
Qed.

Lemma starts_with_length (p s : string) :
  Text.starts_with p s = true -> (String.length p <= String.length s)%nat.
Proof.
  revert s. induction p as [|a p IH]; intros [|b s] H; simpl in *; try lia; try discriminate.
  apply andb_prop in H as [_ H]. specialize (IH s H). lia.
Qed.

Lemma starts_with_substring (p s x : string) (n : nat) :
  Text.starts_with p s = true -> (String.length p <= n)%nat ->
  Text.starts_with p (String.substring 0 n s ++ x) = true.
Proof.
  revert s n. induction p as [|a p IH]; intros s n H Hn; [reflexivity|].
  destruct s as [|b s]; [discriminate|].
  destruct n as [|n]; [simpl in Hn; lia|].
  simpl in *. apply andb_prop in H as [Hab H]. rewrite Hab. simpl.
  apply IH; [exact H|lia].
Qed.

Lemma substring_whole (s : string) (n : nat) :
  (String.length s <= n)%nat -> String.substring 0 n s = s.
Proof.
  revert n. induction s as [|c r IH]; intros [|n] H; simpl in *; try reflexivity; try lia.
  rewrite IH; [reflexivity|lia].
Qed.

(** [s.substring(0, n)] is the text of the first [n] characters, the whole
    text when it has fewer. *)
Lemma js_substring_first (s : string) (n : nat) :
  Text.js_substring s 0 (Z.of_nat n) = String.substring 0 n s.
Proof.
  destruct (Nat.le_gt_cases n (String.length s)) as [Hle|Hgt].
  - change 0%Z with (Z.of_nat 0).
    rewrite js_substring_in_range by lia. now rewrite Nat.sub_0_r.
  - rewrite (substring_whole s n) by lia.
    unfold Text.js_substring.
    replace (Z.max 0 (Z.min 0 (Z.of_nat (String.length s)))) with 0%Z by lia.
    replace (Z.max 0 (Z.min (Z.of_nat n) (Z.of_nat (String.length s))))
      with (Z.of_nat (String.length s)) by lia.
    replace (Z.min 0 (Z.of_nat (String.length s))) with 0%Z by lia.
    replace (Z.max 0 (Z.of_nat (String.length s))) with (Z.of_nat (String.length s)) by lia.
    rewrite Z.sub_0_r, Nat2Z.id. apply substring_whole. lia.
Qed.

(** X11: the result of a successful run reports success, echoes the
    channel and the prompt, and echoes the media reference, which is the
    data URL [generateImage] returned, cut to its first 50 characters and
    followed by an ellipsis: at most 53 characters, still starting with
    [data:]. *)
Theorem X11_result_echo (w : world) (options : GenerateAndSendOptions)
        (res : Result) (t : list event) :
  generateAndSend w options [] = (Ok res, t) ->
  success res = true
  /\ res_channel res = opt_channel options
  /\ res_prompt res = opt_prompt options
  /\ (exists reference requests,
        generateImage w (image_input options) [] = (Ok reference, requests)
        /\ imageUrl res = String.substring 0 50 reference ++ "...")
  /\ (String.length (imageUrl res) <= 53)%nat
  /\ Text.starts_with "data:" (imageUrl res) = true.
Proof.
  intros H.
  destruct (generateAndSend_ok w options res t H)
    as (key & url & Hg & _ & _ & -> & _).
  assert (Hurl : Text.starts_with "data:" url = true).
  { destruct (generateImage_trace w _ _ _ Hg) as [[_ Habs]|(k & _ & Hu)];
      [discriminate|now apply Hu]. }
  cbn [success imageUrl res_channel res_prompt].
  change 50%Z with (Z.of_nat 50). rewrite js_substring_first.
  repeat split.
  - exists url. eexists. split; [exact Hg|reflexivity].
  - rewrite length_app. pose proof (substring_length 0 50 url). simpl String.length. lia.
  - apply starts_with_substring; [exact Hurl|]. simpl. lia.
Qed.

Lemma X11_result_echo_witness :
  success {| success := true; imageUrl := "data:image/jpeg;base64,QUJD...";
             res_channel := "#general"; res_prompt := "a cozy cafe" |} = true
  /\ "#general" = opt_channel (Examples.sample_options true)
  /\ "a cozy cafe" = opt_prompt (Examples.sample_options true)
  /\ (exists reference requests,
        generateImage Examples.abc_world (image_input (Examples.sample_options true)) []
          = (Ok reference, requests)
        /\ "data:image/jpeg;base64,QUJD..." = String.substring 0 50 reference ++ "...")
  /\ (String.length "data:image/jpeg;base64,QUJD..." <= 53)%nat
  /\ Text.starts_with "data:" "data:image/jpeg;base64,QUJD..." = true.
Proof.
  apply (X11_result_echo Examples.abc_world (Examples.sample_options true)
           {| success := true; imageUrl := "data:image/jpeg;base64,QUJD...";
              res_channel := "#general"; res_prompt := "a cozy cafe" |}
           (snd (generateAndSend Examples.abc_world (Examples.sample_options true) []))).
  vm_compute. reflexivity.
Defined.

(** What [generateImage] returns for a response whose first prediction is
    an object. *)
Lemma generateImage_first_prediction (w : world) (input : OnoImageInput) (key : string)
      (resp : response) (top fields : list (string * value)) (rest : list value) :
  env w "GEMINI_API_KEY" = Some key -> key <> EmptyString ->
  fetch w (generate_request key input) = Some resp ->
  ok resp = true ->
  json resp = Some (Obj top) ->
  find "predictions" top = Some (Arr (Obj fields :: rest)) ->
  generateImage w input [] =
    (Ok ("data:"
         ++ to_string (match find "mimeType" fields with
                       | Some m => if truthy m then m
                                   else Str (mime_of_format (output_format input))
                       | None => Str (mime_of_format (output_format input))
                       end)
         ++ ";base64,"
         ++ to_string (match find "bytesBase64Encoded" fields with
                       | Some b => b
                       | None => Undefined
                       end)),
     [Fetch (generate_request key input)]).
Proof.
  intros Hk Hne Hf Hok Hj Hp.
  unfold generateImage, do_fetch, do_json, bind, ret, throw, lift, emit.
  rewrite Hk. apply String.eqb_neq in Hne. rewrite Hne. simpl app.
  rewrite Hf, Hok. simpl negb. cbv iota. rewrite Hj.
  simpl. rewrite Hp. simpl.
  destruct (find "bytesBase64Encoded" fields); destruct (find "mimeType" fields);
    reflexivity.
Qed.

(** X12: end to end with the command-line transport.  When the service
    answers a first prediction holding the base64 encoding of some bytes
    and no MIME type, and the write and the launch succeed, the run
    succeeds and its effects are the request, the write of exactly those
    bytes to [/tmp/ono-selfie-<clock>.<png or jpeg>], and the launch of
    [openclaw] with the channel, the caption (by default the Gemini
    caption) and the path of that file. *)
Theorem X12_end_to_end (w : world) (options : GenerateAndSendOptions) (key : string)
        (resp : response) (top fields : list (string * value)) (rest : list value)
        (bs : list byte) :
  env w "GEMINI_API_KEY" = Some key -> key <> EmptyString ->
  fetch w (generate_request key (image_input options)) = Some resp ->
  ok resp = true ->
  json resp = Some (Obj top) ->
  find "predictions" top = Some (Arr (Obj fields :: rest)) ->
  find "mimeType" fields = None ->
  find "bytesBase64Encoded" fields = Some (Str (Base64.encode bs)) ->
  (forall path, write_ok w path = true) ->
  (forall cmd, exec_ok w cmd = true) ->
  opt_useOpenClawCLI options <> Some false ->
  exists ext res,
    (opt_outputFormat options = Some "png" -> ext = "png")
    /\ (opt_outputFormat options <> Some "png" -> ext = "jpeg")
    /\ success res = true
    /\ generateAndSend w options [] =
       (Ok res,
        [Fetch (generate_request key (image_input options));
         WriteFile ("/tmp/ono-selfie-" ++ Text.decimal (now w) ++ "." ++ ext) bs;
         Exec ("openclaw message send --action send --channel "
               ++ dquote ++ opt_channel options ++ dquote
               ++ " --message " ++ dquote
               ++ match opt_caption options with
                  | Some c => c
                  | None => "Generated with Google Gemini"
                  end ++ dquote
               ++ " --media " ++ dquote
               ++ ("/tmp/ono-selfie-" ++ Text.decimal (now w) ++ "." ++ ext) ++ dquote)]).
Proof.
  intros Hk Hne Hf Hok Hj Hp Hm Hb Hw He Hcli.
  pose proof (generateImage_first_prediction w _ key resp top fields rest
                Hk Hne Hf Hok Hj Hp) as Hg.
  rewrite Hm, Hb in Hg. cbn [to_string] in Hg.
  set (fmt := default "jpeg" (opt_outputFormat options)) in *.
  set (ext := if String.eqb fmt "png" then "png" else "jpeg").
  assert (Hmime : mime_of_format (output_format (image_input options)) = "image/" ++ ext).
  { unfold ext. simpl. fold fmt. now destruct (String.eqb fmt "png"). }
  rewrite Hmime in Hg.
  set (url := "data:" ++ ("image/" ++ ext) ++ ";base64," ++ Base64.encode bs) in *.
  assert (Hext : free_of ";" ext = true /\ ext <> EmptyString /\ all_word ext = true).
  { unfold ext. destruct (String.eqb fmt "png"); repeat split; discriminate. }
  destruct Hext as (Hfree & Hne' & Hword).
  assert (Hfile : temp_file w url = "/tmp/ono-selfie-" ++ Text.decimal (now w) ++ "." ++ ext).
  { exact (temp_file_of_subtype w ext (Base64.encode bs) Hfree). }
  assert (Hdata : replace_data_prefix url = Base64.encode bs).
  { exact (replace_data_prefix_word ext (Base64.encode bs) Hne' Hword). }
  assert (Hurl : Text.starts_with "data:" url = true) by reflexivity.
  rewrite (generateAndSend_after_image w options url _ Hg Hurl). cbv zeta.
  rewrite Hw, Hfile, Hdata, decode_encode.
  assert (Hdef : default true (opt_useOpenClawCLI options) = true).
  { destruct (opt_useOpenClawCLI options) as [[]|]; try reflexivity. now contradiction Hcli. }
  rewrite Hdef. unfold dispatch_result, dispatch_event. rewrite He.
  exists ext.
  exists {| success := true;
            imageUrl := Text.js_substring url 0 50 ++ "...";
            res_channel := opt_channel options;
            res_prompt := opt_prompt options |}.
  split; [|split; [|split]].
  - intros Hpng. unfold ext, fmt. now rewrite Hpng.
  - intros Hn. unfold ext, fmt.
    destruct (opt_outputFormat options) as [f|]; [|reflexivity]. simpl.
    destruct (String.eqb f "png") eqn:Hf'; [|reflexivity].
    apply String.eqb_eq in Hf'. subst f. now contradiction Hn.
  - reflexivity.
  - reflexivity.
Qed.

Lemma X12_end_to_end_witness :
  exists ext res,
    (opt_outputFormat (Examples.sample_options true) = Some "png" -> ext = "png")
    /\ (opt_outputFormat (Examples.sample_options true) <> Some "png" -> ext = "jpeg")
    /\ success res = true
    /\ generateAndSend Examples.abc_world (Examples.sample_options true) [] =
       (Ok res,
        [Fetch (generate_request "k" (image_input (Examples.sample_options true)));
         WriteFile ("/tmp/ono-selfie-" ++ Text.decimal (now Examples.abc_world) ++ "." ++ ext)
           [x41; x42; x43];
         Exec ("openclaw message send --action send --channel "
               ++ dquote ++ opt_channel (Examples.sample_options true) ++ dquote
               ++ " --message " ++ dquote
               ++ match opt_caption (Examples.sample_options true) with
                  | Some c => c
                  | None => "Generated with Google Gemini"
                  end ++ dquote
               ++ " --media " ++ dquote
               ++ ("/tmp/ono-selfie-" ++ Text.decimal (now Examples.abc_world) ++ "." ++ ext)
               ++ dquote)]).
Proof.
  apply (X12_end_to_end Examples.abc_world (Examples.sample_options true) "k"
           (Examples.ok_response Examples.abc_payload)
           [("predictions", Arr [Obj [("bytesBase64Encoded", Str "QUJD")]])]
           [("bytesBase64Encoded", Str "QUJD")] [] [x41; x42; x43]).
  - reflexivity.
  - discriminate.
  - reflexivity.
  - reflexivity.
  - reflexivity.
  - reflexivity.
  - reflexivity.
  - reflexivity.
  - reflexivity.
  - reflexivity.
  - discriminate.
Defined.

End TsPipeline.

(** * The two decoders *)

Section Decoders.

Import Base64.








End Decoders.

(** * Further properties of the shell script *)

Section ShScript.

Import OnoSelfieSh.

Local Ltac guards Hk Hc Hch :=
  unfold script;
  apply String.eqb_neq in Hk; apply String.eqb_neq in Hc; apply String.eqb_neq in Hch;
  rewrite Hk, Hc, Hch; cbn [orb].

(** The check on the response looks for the text anywhere in it. *)
Lemma grep_error (s : string) :
  grep_q Text.contains ["error"] s = Text.contains "error" s.
Proof.
  unfold grep_q.
  transitivity (existsb (Text.contains "error") (Text.lines s)).
  - induction (Text.lines s) as [|l ls IH]; [reflexivity|].
    cbn [existsb] in *. now rewrite IH, orb_false_r.
  - now apply contains_lines.
Qed.


(** X15: a response that contains the text [error] anywhere, even inside
    an otherwise good payload, makes the script exit with status 1 after
    the request; nothing is written or dispatched. *)
Theorem X15_error_text (w : world) (args : list string) :
  GEMINI_API_KEY w <> EmptyString ->
  nth 0 args EmptyString <> EmptyString ->
  nth 1 args EmptyString <> EmptyString ->
  (forall url p, Text.contains "error" (raw (curl w url p)) = true) ->
  exists payload, script w args = (1%Z, [Curl (API_URL w) payload]).
Proof.
  intros Hk Hc Hch He. guards Hk Hc Hch.
  rewrite grep_error, He. eexists. reflexivity.
Qed.

Lemma X15_error_text_witness :
  exists payload,
    script (Examples.sh_world_raw "k" "{ predictions: [ terror ] }"
              [Examples.abc_payload])
      ["a cozy cafe"; "#general"]
    = (1%Z, [Curl (API_URL (Examples.sh_world_raw "k" "{ predictions: [ terror ] }"
                              [Examples.abc_payload])) payload]).
Proof.
  apply (X15_error_text
           (Examples.sh_world_raw "k" "{ predictions: [ terror ] }"
              [Examples.abc_payload])
           ["a cozy cafe"; "#general"]).
  - discriminate.
  - discriminate.
  - discriminate.
  - intros url p. reflexivity.
Defined.


(** X16: when [jq] reads no JSON value from the response, or the response
    is one JSON object that has no predictions, or whose first prediction
    has no payload (missing, [null] or empty), the script exits with status
    1 after the request; nothing is written or dispatched. *)
Theorem X16_no_payload (w : world) (args : list string) :
  GEMINI_API_KEY w <> EmptyString ->
  nth 0 args EmptyString <> EmptyString ->
  nth 1 args EmptyString <> EmptyString ->
  (forall url p, sh_no_payload (parsed (curl w url p))) ->
  exists payload, script w args = (1%Z, [Curl (API_URL w) payload]).
Proof.
  intros Hk Hc Hch Hp. guards Hk Hc Hch.
  eexists.
  destruct (grep_q Text.contains ["error"] _); [reflexivity|].
  match goal with
  | |- context [BASE64_IMAGE w ?r] =>
      assert (Himg : BASE64_IMAGE w r = "null" \/ BASE64_IMAGE w r = EmptyString)
  end.
  { unfold BASE64_IMAGE, jq_r.
    match goal with
    | |- context [parsed (curl w ?u ?q)] => specialize (Hp u q)
    end.
    destruct Hp as [->|(top & -> & [Hf|[Hf|(fields & rest & Hf & [Hb|[Hb|Hb]])]])];
      cbn [fold_right]; unfold jq_line; simpl;
      try rewrite Hf; simpl; try rewrite Hb; simpl; auto. }
  destruct Himg as [->| ->]; reflexivity.
Qed.

Lemma X16_no_payload_witness :
  exists payload,
    script (Examples.sh_world "k" Examples.empty_predictions) ["a cozy cafe"; "#general"]
    = (1%Z, [Curl (API_URL (Examples.sh_world "k" Examples.empty_predictions)) payload]).
Proof.
  apply (X16_no_payload (Examples.sh_world "k" Examples.empty_predictions)
           ["a cozy cafe"; "#general"]).
  - discriminate.
  - discriminate.
  - discriminate.
  - intros url p. right. exists [("predictions", Js.Arr [])].
    split; [reflexivity|]. right. left. reflexivity.
Defined.


Local Ltac divlia := zify; Z.to_euclidean_division_equations; lia.






End ShScript.

(** * The two scripts on the same payload *)

Section SameBytes.

Import Base64.





End SameBytes.

(** * Further properties of the Mode Selector *)

Section ModeFacts.

Import OnoSelfieSh.

Lemma lower_string_app (a b : string) :
  Text.lower_string (a ++ b) = Text.lower_string a ++ Text.lower_string b.
Proof. induction a as [|c a IH]; simpl; [reflexivity|now rewrite IH]. Qed.

Lemma starts_with_app (k b : string) : Text.starts_with k (k ++ b) = true.
Proof.
  induction k as [|c k IH]; [reflexivity|].
  simpl. now rewrite Ascii.eqb_refl, IH.
Qed.

Lemma contains_here (k b : string) : Text.contains k (k ++ b) = true.
Proof.
  destruct k as [|c r]; [destruct b; reflexivity|].
  cbn [append Text.contains].
  change (String c (r ++ b)) with (String c r ++ b).
  now rewrite starts_with_app.
Qed.

(** An occurrence stays one when text is put before and after it. *)
Lemma contains_inside (k a b : string) : Text.contains k (a ++ k ++ b) = true.
Proof.
  induction a as [|c a IH]; [exact (contains_here k b)|].
  cbn [append Text.contains]. rewrite IH. apply orb_true_r.
Qed.

Lemma has_keyword_inside (keywords : list string) (k k' a b : string) :
  In k keywords ->
  Text.lower_string k = Text.lower_string k' ->
  Spec.has_keyword keywords (a ++ k' ++ b) = true.
Proof.
  intros Hin Hk. unfold Spec.has_keyword. apply existsb_exists.
  exists k. split; [exact Hin|].
  unfold Text.contains_ci. rewrite !lower_string_app, Hk. apply contains_inside.
Qed.

(** X18: when the caller's locale is the C locale, in auto mode the
    keywords are matched anywhere in the context, inside longer words and
    in any case of their ASCII letters.  A context with one of the script's
    mirror keywords is classified [mirror] whatever else it contains; one
    with a direct keyword and no mirror keyword is classified [direct]. *)
Theorem X18_keyword_anywhere (w : world) (k k' before after : string) :
  c_locale (grep_i w) ->
  Text.lower_string k = Text.lower_string k' ->
  (In k mirror_keywords -> MODE_in (grep_i w) "auto" (before ++ k' ++ after) = "mirror")
  /\ (In k direct_keywords ->
      Spec.has_keyword mirror_keywords (before ++ k' ++ after) = false ->
      MODE_in (grep_i w) "auto" (before ++ k' ++ after) = "direct").
Proof.
  intros Hc Hk. rewrite (MODE_in_c_locale _ _ _ Hc), MODE_auto. split.
  - intros Hin. now rewrite (has_keyword_inside mirror_keywords k k' before after Hin Hk).
  - intros Hin Hm. rewrite Hm.
    now rewrite (has_keyword_inside Spec.direct_set k k' before after Hin Hk).
Qed.

Lemma X18_keyword_anywhere_witness :
  MODE_in (grep_i (Examples.sh_world "k" Examples.abc_payload)) "auto"
    ("in pur" ++ "SUIT" ++ " of happiness at the beach") = "mirror"
  /\ MODE_in (grep_i (Examples.sh_world "k" Examples.abc_payload)) "auto"
       ("the sur" ++ "Face" ++ " of the moon") = "direct".
Proof.
  assert (Hc : c_locale (grep_i (Examples.sh_world "k" Examples.abc_payload)))
    by (intros k line; reflexivity).
  split.
  - apply (proj1 (X18_keyword_anywhere (Examples.sh_world "k" Examples.abc_payload)
                    "suit" "SUIT" "in pur" " of happiness at the beach" Hc eq_refl)).
    simpl. tauto.
  - apply (proj2 (X18_keyword_anywhere (Examples.sh_world "k" Examples.abc_payload)
                    "face" "Face" "the sur" " of the moon" Hc eq_refl)).
    + simpl. tauto.
    + reflexivity.
Defined.

(** X19: when the caller's locale is the C locale, in auto mode the
    classification does not depend on the case of ASCII letters: two
    contexts that differ only in it get the same mode. *)
Theorem X19_case_invariant (w : world) (s s' : string) :
  c_locale (grep_i w) ->
  Text.lower_string s = Text.lower_string s' ->
  MODE_in (grep_i w) "auto" s = MODE_in (grep_i w) "auto" s'.
Proof.
  intros Hc H. rewrite !(MODE_in_c_locale _ _ _ Hc), !MODE_auto.
  unfold Spec.has_keyword, Text.contains_ci.
  now rewrite H.
Qed.

Lemma X19_case_invariant_witness :
  MODE_in (grep_i (Examples.sh_world "k" Examples.abc_payload)) "auto" "Wearing A Santa Hat"
  = MODE_in (grep_i (Examples.sh_world "k" Examples.abc_payload)) "auto" "wearing a santa hat".
Proof.
  apply (X19_case_invariant (Examples.sh_world "k" Examples.abc_payload)
           "Wearing A Santa Hat" "wearing a santa hat").
  - intros k line. reflexivity.
  - reflexivity.
Defined.

(** X20: when the caller's locale is the C locale, in auto mode a context
    with none of the keywords the script searches for, in any case of their
    ASCII letters, is given the default mode [mirror]; and in every locale
    the detected mode is one of [mirror] and [direct]. *)
Theorem X20_default_mode (w : world) (s : string) :
  (c_locale (grep_i w) ->
   Spec.has_keyword mirror_keywords s = false ->
   Spec.has_keyword direct_keywords s = false ->
   MODE_in (grep_i w) "auto" s = "mirror")
  /\ (MODE_in (grep_i w) "auto" s = "mirror" \/ MODE_in (grep_i w) "auto" s = "direct").
Proof.
  split.
  - intros Hc Hm Hd. rewrite (MODE_in_c_locale _ _ _ Hc), MODE_auto.
    change Spec.direct_set with direct_keywords. now rewrite Hm, Hd.
  - unfold MODE_in. simpl String.eqb. cbv iota.
    destruct (grep_q (grep_i w) mirror_keywords s); [now left|].
    destruct (grep_q (grep_i w) direct_keywords s); [now right|now left].
Qed.

Lemma X20_default_mode_witness :
  MODE_in (grep_i (Examples.sh_world "k" Examples.abc_payload)) "auto" "send me a selfie"
  = "mirror".
Proof.
  apply (proj1 (X20_default_mode (Examples.sh_world "k" Examples.abc_payload)
                  "send me a selfie")).
  - intros k line. reflexivity.
  - reflexivity.
  - reflexivity.
Defined.

(** X21: an explicit mode is kept as given, whatever keywords the context
    has and whatever the locale; the prompt is the close-up one only for
    the mode [direct], every other explicit mode, a misspelt one included,
    gets the mirror prompt. *)
Theorem X21_explicit_mode (w : world) (mode context : string) :
  mode <> "auto" ->
  MODE_in (grep_i w) mode context = mode
  /\ (mode <> "direct" ->
      GEN_PROMPT (MODE_in (grep_i w) mode context) context =
        "a photorealistic mirror selfie of a young woman with long dark hair, "
        ++ context ++ ", full body shot, detailed background, 8k, highly detailed").
Proof.
  intros Hauto. apply String.eqb_neq in Hauto.
  unfold MODE_in. rewrite Hauto. split; [reflexivity|].
  intros Hd. apply String.eqb_neq in Hd. unfold GEN_PROMPT. now rewrite Hd.
Qed.

Lemma X21_explicit_mode_witness :
  MODE_in (grep_i (Examples.sh_world "k" Examples.abc_payload)) "Direct" "a cozy cafe"
  = "Direct"
  /\ GEN_PROMPT
       (MODE_in (grep_i (Examples.sh_world "k" Examples.abc_payload)) "Direct" "a cozy cafe")
       "a cozy cafe" =
       "a photorealistic mirror selfie of a young woman with long dark hair, "
       ++ "a cozy cafe" ++ ", full body shot, detailed background, 8k, highly detailed".
Proof.
  destruct (X21_explicit_mode (Examples.sh_world "k" Examples.abc_payload)
              "Direct" "a cozy cafe") as [Hm Hp]; [discriminate|].
  split; [exact Hm|]. apply Hp. discriminate.
Defined.

End ModeFacts.
